(** * rasa_sdk.executor: registration, dispatch and event validation

    A shallow embedding of [src/rasa_sdk/executor.py]: the
    [CollectingDispatcher] that gathers the messages of one call, and the
    [ActionExecutor] with its registry of action functions, its event
    validator and its [run] entry point. *)

From Stdlib Require Import ZArith.
From stdpp Require Import base option list strings gmap fin_maps.

Open Scope string_scope.
Open Scope list_scope.

#[local] Set Warnings "-register-all".

(** ** Python values

    The values that cross the executor: JSON-like data, plus objects that
    are not plain data.  A dict with text keys is a finite map, compared
    by its lookups as Python's [==] does.  An object is described by what
    the executor inspects of it: the [__module__] of its type and the
    record its [as_dict()] adapter returns. *)

Inductive pyval : Type :=
| PNone
| PBool (b : bool)
| PInt (z : Z)
| PStr (s : string)
| PList (l : list pyval)
| PTuple (l : list pyval)
| PDict (d : gmap string pyval)
| PObj (type_module : string) (as_dict : pyval).

(** Python truth value testing, as [if x:] and [not x] apply it. *)
Definition py_truthy (v : pyval) : bool :=
  match v with
  | PNone => false
  | PBool b => b
  | PInt z => negb (z =? 0)%Z
  | PStr s => negb (String.eqb s "")
  | PList l | PTuple l => negb (Nat.eqb (length l) 0)
  | PDict d => negb (Nat.eqb (size d) 0)
  | PObj _ _ => true
  end.

(** [isinstance(v, dict)] *)
Definition is_dict (v : pyval) : option (gmap string pyval) :=
  match v with PDict d => Some d | _ => None end.

(** [d.get(k)] and [d.get(k, dflt)] on a dict. *)
Definition dict_get (d : gmap string pyval) (k : string) : pyval :=
  match d !! k with Some v => v | None => PNone end.

Definition dict_get_default (d : gmap string pyval) (k : string)
    (dflt : pyval) : pyval :=
  match d !! k with Some v => v | None => dflt end.

(** Values that can be used as a dict key: lists and dicts are
    unhashable, a tuple is hashable when its items are. *)
Fixpoint py_hashable (v : pyval) : bool :=
  match v with
  | PList _ | PDict _ => false
  | PTuple l => forallb py_hashable l
  | _ => true
  end.

(** The characters of a text.  A text is held as its UTF-8 bytes, and a
    character is a leading byte with the continuation bytes (of the form
    [10xxxxxx]) that follow it. *)
Definition is_continuation (c : Ascii.ascii) : bool :=
  match c with
  | Ascii.Ascii _ _ _ _ _ _ false true => true
  | _ => false
  end.

Definition continues (s : string) : bool :=
  match s with
  | String c _ => is_continuation c
  | EmptyString => false
  end.

Fixpoint characters (s : string) : list string :=
  match s with
  | EmptyString => []
  | String c s' =>
      match continues s', characters s' with
      | true, p :: ps => String c p :: ps
      | _, ps => String c EmptyString :: ps
      end
  end.

(** Iteration, as a [for] loop performs it: a list or tuple yields its
    items, a text its characters, a dict its keys; anything else is not
    iterable.  Python enumerates the keys of a dict in the order they
    were inserted, which a finite map does not record: the order is taken
    as given, in [dict_keys]. *)
Definition py_iter (dict_keys : gmap string pyval → list string)
    (v : pyval) : option (list pyval) :=
  match v with
  | PList l | PTuple l => Some l
  | PStr s => Some (PStr <$> characters s)
  | PDict d => Some (PStr <$> dict_keys d)
  | _ => None
  end.

(** ** Effects: exceptions and the module logger *)

(** What the module raises.  The text of an [Exception] is kept as the
    message template with the value formatted into it. *)
Inductive exn : Type :=
| TooFewParameters (n : nat)
    (* "You can only register functions that take 3 parameters as
       arguments. ... Your function accepts only {} parameters." *)
| NotAnAction
    (* "You can only register instances or subclasses of type Action. ..." *)
| NoRegisteredAction (action_name : pyval)
    (* "No registered Action found for name '{}'." *)
| TypeError (v : pyval)
    (* raised by the interpreter: [v] is not iterable, or not hashable,
       or is the name of a parameter that a call gives twice *)
| ImportError
| Raised (e : pyval).
    (* anything raised by code outside this module *)

Inductive level : Type := DEBUG | INFO | WARNING | ERROR.

(** The records handed to [logger], again as template and arguments. *)
Inductive log_text : Type :=
| SkippingBuiltIn (module_name : string)
    (* "Skipping built in Action {}." *)
| RegisteredFunction (name : string)
    (* "Registered function for '{}'." *)
| FailedToRegisterPackage (package : string)
    (* "Failed to register package '{}'." *)
| EventWithoutProperty (action_name e : pyval)
    (* "Your action '{}' returned an action dict without the `event`
       property. ... Event will be ignored! Event: {}" *)
| RasaCoreEvent
    (* "Your action should not return Rasa actions within the SDK. ...
       We will try to make this work, but this might go wrong!" *)
| InvalidEvent (action_name e : pyval)
    (* "Your action's '{}' run method returned an invalid event. Event
       will be ignored. Event: '{}'." *)
| ReceivedRequest (action_name : pyval)
    (* "Received request to run '{}'" *)
| FinishedRunning (action_name : pyval)
    (* "Finished running '{}'" *)
| CallWithoutAction.
    (* "Received an action call without an action." *)

Definition log_record : Type := level * log_text.

(** ** CollectingDispatcher *)

Record CollectingDispatcher : Type := { messages : list pyval }.

Module Dispatcher.

(** [__init__] *)
Definition init : CollectingDispatcher := {| messages := [] |}.

(** [self.messages.append(message)] *)
Definition append (self : CollectingDispatcher) (message : pyval)
    : CollectingDispatcher :=
  {| messages := messages self ++ [message] |}.

(** [message.update(kwargs)]: every key of [kwargs] is set in [message]. *)
Definition update (message kwargs : gmap string pyval)
    : gmap string pyval :=
  kwargs ∪ message.

(** A call of a method gives a value to each of its parameters, and may
    give further keywords, which the method receives as [kwargs].  A
    further keyword with the name of a parameter gives that parameter
    twice: the interpreter raises a [TypeError] ("got multiple values for
    argument") and the body does not run.  In the methods below the
    arguments are the values of the parameters, however the call gave
    them ([silent_fail] is [False] when the call leaves it out), and
    [keywords] are the further keywords of the call. *)
Definition has_key (keywords : gmap string pyval) (k : string) : bool :=
  match keywords !! k with Some _ => true | None => false end.

Definition bind_kwargs (parameters : list string)
    (keywords : gmap string pyval) : exn + gmap string pyval :=
  match find (has_key keywords) parameters with
  | Some k => inl (TypeError (PStr k))
  | None => inr keywords
  end.

Definition utter_elements (elements : list pyval)
    (keywords : gmap string pyval) (self : CollectingDispatcher)
    : exn + CollectingDispatcher :=
  match bind_kwargs ["self"] keywords with
  | inl err => inl err
  | inr kwargs =>
      let message := <["text" := PNone]> {["elements" := PTuple elements]} in
      let message := update message kwargs in
      inr (append self (PDict message))
  end.

(** Deprecated: warns, then passes the tuple of its elements on as the
    single element of [utter_elements]. *)
Inductive warning : Type := DeprecationWarning.

Definition utter_custom_message (elements : list pyval)
    (keywords : gmap string pyval) (self : CollectingDispatcher)
    : exn + list warning * CollectingDispatcher :=
  match bind_kwargs ["self"] keywords with
  | inl err => inl err
  | inr kwargs =>
      match utter_elements [PTuple elements] kwargs self with
      | inl err => inl err
      | inr self' => inr ([DeprecationWarning], self')
      end
  end.

Definition utter_message (text : pyval) (keywords : gmap string pyval)
    (self : CollectingDispatcher) : exn + CollectingDispatcher :=
  match bind_kwargs ["self"; "text"] keywords with
  | inl err => inl err
  | inr kwargs =>
      let message := {["text" := text]} in
      let message := update message kwargs in
      inr (append self (PDict message))
  end.

Definition utter_button_message (text buttons : pyval)
    (keywords : gmap string pyval) (self : CollectingDispatcher)
    : exn + CollectingDispatcher :=
  match bind_kwargs ["self"; "text"; "buttons"] keywords with
  | inl err => inl err
  | inr kwargs =>
      let message := <["text" := text]> {["buttons" := buttons]} in
      let message := update message kwargs in
      inr (append self (PDict message))
  end.

Definition utter_attachment (attachment : pyval)
    (keywords : gmap string pyval) (self : CollectingDispatcher)
    : exn + CollectingDispatcher :=
  match bind_kwargs ["self"; "attachment"] keywords with
  | inl err => inl err
  | inr kwargs =>
      let message :=
        <["text" := PNone]> {["attachment" := attachment]} in
      let message := update message kwargs in
      inr (append self (PDict message))
  end.

(** [tracker] and [silent_fail] are accepted and not used. *)
Definition utter_button_template {Tracker : Type}
    (template buttons : pyval) (tracker : Tracker) (silent_fail : bool)
    (keywords : gmap string pyval) (self : CollectingDispatcher)
    : exn + CollectingDispatcher :=
  match
    bind_kwargs ["self"; "template"; "buttons"; "tracker"; "silent_fail"]
      keywords
  with
  | inl err => inl err
  | inr kwargs =>
      let message :=
        <["template" := template]> {["buttons" := buttons]} in
      let message := update message kwargs in
      inr (append self (PDict message))
  end.

Definition utter_template {Tracker : Type}
    (template : pyval) (tracker : Tracker) (silent_fail : bool)
    (keywords : gmap string pyval) (self : CollectingDispatcher)
    : exn + CollectingDispatcher :=
  match
    bind_kwargs ["self"; "template"; "tracker"; "silent_fail"] keywords
  with
  | inl err => inl err
  | inr kwargs =>
      let message := {["template" := template]} in
      let message := update message kwargs in
      inr (append self (PDict message))
  end.

Definition utter_custom_json (json_message : pyval)
    (keywords : gmap string pyval) (self : CollectingDispatcher)
    : exn + CollectingDispatcher :=
  match bind_kwargs ["self"; "json_message"] keywords with
  | inl err => inl err
  | inr kwargs =>
      let json_message := {["custom" := json_message]} in
      let json_message := update json_message kwargs in
      inr (append self (PDict json_message))
  end.

Definition utter_image_url (image : pyval)
    (keywords : gmap string pyval) (self : CollectingDispatcher)
    : exn + CollectingDispatcher :=
  match bind_kwargs ["self"; "image"] keywords with
  | inl err => inl err
  | inr kwargs =>
      let json_message := {["image" := image]} in
      let json_message := update json_message kwargs in
      inr (append self (PDict json_message))
  end.

(** One call of a message method, as data: the method with its own
    arguments. *)
Inductive utterance {Tracker : Type} : Type :=
| UtterCustomMessage (elements : list pyval)
| UtterElements (elements : list pyval)
| UtterMessage (text : pyval)
| UtterButtonMessage (text buttons : pyval)
| UtterAttachment (attachment : pyval)
| UtterButtonTemplate (template buttons : pyval) (tracker : Tracker)
    (silent_fail : bool)
| UtterTemplate (template : pyval) (tracker : Tracker) (silent_fail : bool)
| UtterCustomJson (json_message : pyval)
| UtterImageUrl (image : pyval).

Arguments utterance : clear implicits.

Definition utter {Tracker : Type} (u : utterance Tracker)
    (keywords : gmap string pyval) (self : CollectingDispatcher)
    : exn + CollectingDispatcher :=
  match u with
  | UtterCustomMessage elements =>
      match utter_custom_message elements keywords self with
      | inl err => inl err
      | inr (_, self') => inr self'
      end
  | UtterElements elements => utter_elements elements keywords self
  | UtterMessage text => utter_message text keywords self
  | UtterButtonMessage text buttons =>
      utter_button_message text buttons keywords self
  | UtterAttachment attachment => utter_attachment attachment keywords self
  | UtterButtonTemplate template buttons tracker silent_fail =>
      utter_button_template template buttons tracker silent_fail keywords
        self
  | UtterTemplate template tracker silent_fail =>
      utter_template template tracker silent_fail keywords self
  | UtterCustomJson json_message =>
      utter_custom_json json_message keywords self
  | UtterImageUrl image => utter_image_url image keywords self
  end.

(** The names of the parameters of each method. *)
Definition parameters {Tracker : Type} (u : utterance Tracker)
    : list string :=
  match u with
  | UtterCustomMessage _ | UtterElements _ => ["self"]
  | UtterMessage _ => ["self"; "text"]
  | UtterButtonMessage _ _ => ["self"; "text"; "buttons"]
  | UtterAttachment _ => ["self"; "attachment"]
  | UtterButtonTemplate _ _ _ _ =>
      ["self"; "template"; "buttons"; "tracker"; "silent_fail"]
  | UtterTemplate _ _ _ => ["self"; "template"; "tracker"; "silent_fail"]
  | UtterCustomJson _ => ["self"; "json_message"]
  | UtterImageUrl _ => ["self"; "image"]
  end.

(** The fields each method fixes before the keyword arguments are merged
    in, read off the table of message shapes. *)
Definition fixed_fields {Tracker : Type} (u : utterance Tracker)
    : list (string * pyval) :=
  match u with
  | UtterCustomMessage elements =>
      [("text", PNone); ("elements", PTuple [PTuple elements])]
  | UtterElements elements =>
      [("text", PNone); ("elements", PTuple elements)]
  | UtterMessage text => [("text", text)]
  | UtterButtonMessage text buttons => [("text", text); ("buttons", buttons)]
  | UtterAttachment attachment =>
      [("text", PNone); ("attachment", attachment)]
  | UtterButtonTemplate template buttons _ _ =>
      [("template", template); ("buttons", buttons)]
  | UtterTemplate template _ _ => [("template", template)]
  | UtterCustomJson json_message => [("custom", json_message)]
  | UtterImageUrl image => [("image", image)]
  end.

(** The message a call is to append: its fixed fields, updated with its
    keyword arguments. *)
Definition message_of {Tracker : Type}
    (c : utterance Tracker * gmap string pyval) : pyval :=
  PDict (update (list_to_map (fixed_fields c.1)) c.2).

(** A handler's calls on its dispatcher, in the order it makes them, up
    to the first that raises. *)
Fixpoint utter_all {Tracker : Type}
    (calls : list (utterance Tracker * gmap string pyval))
    (self : CollectingDispatcher) : exn + CollectingDispatcher :=
  match calls with
  | [] => inr self
  | c :: calls' =>
      match utter c.1 c.2 self with
      | inl err => inl err
      | inr self' => utter_all calls' self'
      end
  end.

End Dispatcher.

(** ** ActionExecutor *)

Section executor.

(** [rasa_sdk.interfaces.Tracker] lives outside this module: its type and
    its [from_dict] constructor, which may raise, are taken as given. *)
Context {Tracker : Type}.
Variable Tracker_from_dict : pyval → exn + Tracker.

(** The keys of a dict in the order of their insertion, for [py_iter]. *)
Variable dict_keys : gmap string pyval → list string.

(** A callable handed to the executor: what [utils.arguments_of] reports
    for it, its truth value (a function or a bound method is true; an
    object with [__call__] is what its [__bool__] or [__len__] makes of
    it), and what calling it with a dispatcher, a tracker and a domain
    does.  The call changes the dispatcher it was given and either
    returns a value or raises. *)
Record function : Type := {
  arguments_of : list string;
  truth_value : bool;
  call : CollectingDispatcher → Tracker → pyval
         → (exn + pyval) * CollectingDispatcher
}.

Record ActionExecutor : Type := { actions : gmap string function }.

(** The state a method of the executor works on: the executor itself and
    the records the module logger has received, oldest first. *)
Record state : Type := { self : ActionExecutor; logger : list log_record }.

(** Computations that read and write the state and may raise; a raise
    keeps the state reached so far. *)
Definition M (A : Type) : Type := state → (exn + A) * state.

#[export] Instance M_ret : MRet M := λ A x s, (inr x, s).

#[export] Instance M_bind : MBind M := λ A B f m s,
  match m s with
  | (inr x, s') => f x s'
  | (inl e, s') => (inl e, s')
  end.

Definition raise {A : Type} (e : exn) : M A := λ s, (inl e, s).

Definition emit (l : level) (t : log_text) : M unit := λ s,
  (inr (), {| self := self s; logger := logger s ++ [(l, t)] |}).

Definition get_actions : M (gmap string function) := λ s,
  (inr (actions (self s)), s).

Definition set_actions (a : gmap string function) : M unit := λ s,
  (inr (), {| self := {| actions := a |}; logger := logger s |}).

(** [__init__] *)
Definition ActionExecutor_init : ActionExecutor := {| actions := ∅ |}.

Definition register_function (name : string) (f : function) : M unit :=
  emit INFO (RegisteredFunction name);;
  let valid_keys := arguments_of f in
  if decide (length valid_keys < 3) then
    raise (TooFewParameters (length valid_keys))
  else
    a ← get_actions;
    set_actions (<[name := f]> a).

(** An [Action] object answers [name()] and has a bound [run] method.
    What is handed to [register_action] is a class or an object; a class
    has the [__module__] it was defined in, may be marked abstract by its
    [Meta], and calling it builds an object (or raises). *)
Record Action : Type := {
  Action_name : string;
  Action_run_arguments : list string;
  Action_run_call : CollectingDispatcher → Tracker → pyval
                    → (exn + pyval) * CollectingDispatcher
}.

(** [action.run], the bound method: a true value, as every method is. *)
Definition Action_run (a : Action) : function := {|
  arguments_of := Action_run_arguments a;
  truth_value := true;
  call := Action_run_call a
|}.

Inductive object : Type :=
| AnAction (a : Action)        (* [isinstance(action, Action)] holds *)
| NotAnActionObject (v : pyval).

Record class : Type := {
  class_module : string;
  class_abstract : bool;
  class_new : exn + object
}.

Inductive registrable : Type :=
| AClass (c : class)           (* [inspect.isclass(action)] holds *)
| AnObject (o : object).

Definition lift {A : Type} (r : exn + A) : M A :=
  match r with inl e => raise e | inr x => mret x end.

(** The [return] in the middle of [register_action] leaves nothing to
    register: the first half yields the object to register, if any. *)
Definition register_action (action : registrable) : M unit :=
  action ← match action with
           | AClass c =>
               if String.prefix "rasa." (class_module c) then
                 emit WARNING (SkippingBuiltIn (class_module c));;
                 mret None
               else
                 o ← lift (class_new c);
                 mret (Some o)
           | AnObject o => mret (Some o)
           end;
  match action with
  | None => mret ()
  | Some (AnAction a) => register_function (Action_name a) (Action_run a)
  | Some (NotAnActionObject _) => raise NotAnAction
  end.

Fixpoint for_each {A : Type} (l : list A) (body : A → M unit) : M unit :=
  match l with
  | [] => mret ()
  | x :: l' => body x;; for_each l' body
  end.

(** Importing the submodules of a package and listing the subclasses of
    [Action] is the work of [importlib], [pkgutil] and [utils]: the
    outcome of the import and the list of subclasses are taken as given. *)
Definition register_package (package : string)
    (import_submodules : exn + unit) (all_subclasses : list class)
    : M unit :=
  match import_submodules with
  | inr _ => mret ()
  | inl ImportError => emit ERROR (FailedToRegisterPackage package)
  | inl e => raise e
  end;;
  for_each all_subclasses (λ action,
    let abstract := class_abstract action in
    if negb (String.prefix "rasa_core." (class_module action))
       && negb (String.prefix "rasa." (class_module action))
       && negb (String.prefix "rasa_sdk." (class_module action))
       && negb (String.prefix "rasa_core_sdk." (class_module action))
       && negb abstract
    then register_action (AClass action)
    else mret ()).

Definition _create_api_response (events messages : list pyval) : pyval :=
  PDict (<["events" := PList events]> {["responses" := PList messages]}).

(** [type(e).__module__]: the built-in types live in [builtins]. *)
Definition type_module (e : pyval) : string :=
  match e with
  | PObj m _ => m
  | _ => "builtins"
  end.

(** [e.as_dict()]: only objects have the method. *)
Definition call_as_dict (e : pyval) : M pyval :=
  match e with
  | PObj _ r => mret r
  | _ => raise (Raised (PStr "AttributeError"))
  end.

(** The body of the loop of [validate_events], on one item. *)
Definition validate_event (action_name e : pyval) (validated : list pyval)
    : M (list pyval) :=
  if is_dict e is Some d then
    if negb (py_truthy (dict_get d "event")) then
      emit ERROR (EventWithoutProperty action_name e);;
      mret validated
    else
      mret (validated ++ [e])
  else if String.eqb (type_module e) "rasa.core.events" then
    emit WARNING RasaCoreEvent;;
    r ← call_as_dict e;
    mret (validated ++ [r])
  else
    emit ERROR (InvalidEvent action_name e);;
    mret validated.

Fixpoint validate_loop (action_name : pyval) (events validated : list pyval)
    : M (list pyval) :=
  match events with
  | [] => mret validated
  | e :: events' =>
      validated ← validate_event action_name e validated;
      validate_loop action_name events' validated
  end.

Definition validate_events (events action_name : pyval) : M (list pyval) :=
  match py_iter dict_keys events with
  | None => raise (TypeError events)
  | Some items => validate_loop action_name items []
  end.

(** [self.actions.get(action_name)]: the registry is keyed by names, so
    only a text can be found in it; an unhashable key raises. *)
Definition actions_get (key : pyval) : M (option function) :=
  a ← get_actions;
  if py_hashable key then
    mret (match key with PStr name => a !! name | _ => None end)
  else
    raise (TypeError key).

(** Calling what the lookup returned: the dispatcher it changed comes
    back with the returned value; [None] cannot be called. *)
Definition call_action (action : option function)
    (dispatcher : CollectingDispatcher)
    (tracker : Tracker) (domain : pyval) : M (pyval * CollectingDispatcher) :=
  match action with
  | None => raise (TypeError PNone)
  | Some f =>
      match call f dispatcher tracker domain with
      | (inr events, dispatcher') => mret (events, dispatcher')
      | (inl e, _) => raise e
      end
  end.

(** [not action], on what [self.actions.get] returned: [None] is false,
    and a callable is what its truth value says. *)
Definition not_action (action : option function) : bool :=
  match action with
  | None => true
  | Some f => negb (truth_value f)
  end.

(** [run] returns the response, or [None] when it falls off its end. *)
Definition run (action_call : gmap string pyval) : M pyval :=
  let action_name := dict_get action_call "next_action" in
  if py_truthy action_name then
    emit DEBUG (ReceivedRequest action_name);;
    action ← actions_get action_name;
    if not_action action then
      raise (NoRegisteredAction action_name)
    else
      let tracker_json := dict_get action_call "tracker" in
      let domain := dict_get_default action_call "domain" (PDict ∅) in
      tracker ← lift (Tracker_from_dict tracker_json);
      let dispatcher := Dispatcher.init in
      '(events, dispatcher) ← call_action action dispatcher tracker domain;
      let events := if negb (py_truthy events) then PList [] else events in
      validated_events ← validate_events events action_name;
      emit DEBUG (FinishedRunning action_name);;
      mret (_create_api_response validated_events (messages dispatcher))
  else
    emit WARNING CallWithoutAction;;
    mret PNone.

(** The operations of the executor, as data, to speak of any sequence of
    them. *)
Inductive operation : Type :=
| OpRegisterFunction (name : string) (f : function)
| OpRegisterAction (action : registrable)
| OpRegisterPackage (package : string) (import_submodules : exn + unit)
    (all_subclasses : list class)
| OpValidateEvents (events action_name : pyval)
| OpRun (action_call : gmap string pyval).

Definition perform (o : operation) : M unit :=
  match o with
  | OpRegisterFunction name f => register_function name f
  | OpRegisterAction action => register_action action
  | OpRegisterPackage package import_submodules all_subclasses =>
      register_package package import_submodules all_subclasses
  | OpValidateEvents events action_name =>
      validate_events events action_name;; mret ()
  | OpRun action_call => run action_call;; mret ()
  end.

(** A caller goes on after an operation raised: each operation starts
    from the state the previous one left. *)
Definition perform_all (ops : list operation) (s : state) : state :=
  foldl (λ s o, snd (perform o s)) s ops.

(** The names an operation may register a function under. *)
Definition object_names (o : object) : list string :=
  match o with
  | AnAction a => [Action_name a]
  | NotAnActionObject _ => []
  end.

Definition registrable_names (r : registrable) : list string :=
  match r with
  | AClass c =>
      match class_new c with
      | inr o => object_names o
      | inl _ => []
      end
  | AnObject o => object_names o
  end.

Definition registered_names (o : operation) : list string :=
  match o with
  | OpRegisterFunction name _ => [name]
  | OpRegisterAction action => registrable_names action
  | OpRegisterPackage _ _ all_subclasses =>
      c ← all_subclasses; registrable_names (AClass c)
  | OpValidateEvents _ _ | OpRun _ => []
  end.

End executor.

Arguments function : clear implicits.
Arguments Action : clear implicits.
Arguments object : clear implicits.
Arguments class : clear implicits.
Arguments registrable : clear implicits.
Arguments ActionExecutor : clear implicits.
Arguments state : clear implicits.
Arguments M : clear implicits.
Arguments operation : clear implicits.

(** ** What the validator lets through

    The decision on one returned item, and the record logged for it:
    a dict is kept when the value under [event] is true, an object of
    [rasa.core.events] is replaced by its record, anything else goes. *)
Definition accepted (e : pyval) : option pyval :=
  match e with
  | PDict d =>
      match d !! "event" with
      | Some v => if py_truthy v then Some e else None
      | None => None
      end
  | PObj m r => if decide (m = "rasa.core.events") then Some r else None
  | _ => None
  end.

Definition diagnostic (action_name e : pyval) : option log_record :=
  match e with
  | PDict d =>
      match accepted e with
      | Some _ => None
      | None => Some (ERROR, EventWithoutProperty action_name e)
      end
  | PObj m r =>
      if decide (m = "rasa.core.events") then Some (WARNING, RasaCoreEvent)
      else Some (ERROR, InvalidEvent action_name e)
  | _ => Some (ERROR, InvalidEvent action_name e)
  end.

(** The state after more records reached the logger. *)
Definition logged {Tracker : Type} (s : state Tracker)
    (records : list log_record) : state Tracker :=
  {| self := self s; logger := logger s ++ records |}.

(** From [s] to [s'] the registry lost no name, and changed at most under
    the names listed. *)
Definition keeps {Tracker : Type} (names : list string)
    (s s' : state Tracker) : Prop :=
  ∀ k : string,
    (k ∉ names → actions (self s') !! k = actions (self s) !! k)
    ∧ (is_Some (actions (self s) !! k) → is_Some (actions (self s') !! k)).

(** The entries of a registry under one name. *)
Definition entries_under {Tracker : Type} (name : string)
    (a : gmap string (function Tracker)) : list (string * function Tracker) :=
  filter (λ kv, kv.1 = name) (map_to_list a).

(** ** Sample values

    A tracker that keeps the payload it was built from and cannot be
    built from anything but a dict, an order for the keys of a dict, and
    the handlers and requests of the examples. *)
Definition sample_from_dict (state : pyval) : exn + pyval :=
  match state with
  | PDict _ => inr state
  | _ => inl (Raised (PStr "AttributeError"))
  end.

Definition sample_dict_keys (d : gmap string pyval) : list string :=
  (map_to_list d).*1.

Definition slot_x : pyval :=
  PDict (<["event" := PStr "slot"]>
           (<["name" := PStr "x"]> {["value" := PInt 1]})).

(** What a handler leaves when its last statement returns [result] after
    a call on the dispatcher: an exception of the call leaves the
    handler. *)
Definition then_return (said : exn + CollectingDispatcher)
    (dispatcher : CollectingDispatcher) (result : exn + pyval)
    : (exn + pyval) * CollectingDispatcher :=
  match said with
  | inr dispatcher' => (result, dispatcher')
  | inl err => (inl err, dispatcher)
  end.

Definition said_hello : CollectingDispatcher :=
  {| messages := [PDict {["text" := PStr "hello"]}] |}.

Definition greet : function pyval := {|
  arguments_of := ["dispatcher"; "tracker"; "domain"];
  truth_value := true;
  call := λ dispatcher tracker domain,
    then_return (Dispatcher.utter_message (PStr "hello") ∅ dispatcher)
      dispatcher (inr (PList [slot_x]))
|}.

Definition four_parameters : function pyval := {|
  arguments_of := ["dispatcher"; "tracker"; "domain"; "extra"];
  truth_value := true;
  call := λ dispatcher tracker domain, (inr PNone, dispatcher)
|}.

Definition fresh : state pyval :=
  {| self := ActionExecutor_init; logger := [] |}.

Definition request (next_action : pyval) : gmap string pyval :=
  <["next_action" := next_action]>
    (<["tracker" := PDict ∅]> {["domain" := PDict ∅]}).

(** A handler that says something and then raises, one that returns
    [True], a callable object that is false (its class gives it a
    [__len__] of 0), and an action with its class, in a module of the
    user and in a module of Rasa. *)
Definition failing : function pyval := {|
  arguments_of := ["dispatcher"; "tracker"; "domain"];
  truth_value := true;
  call := λ dispatcher tracker domain,
    then_return (Dispatcher.utter_message (PStr "hello") ∅ dispatcher)
      dispatcher (inl (Raised (PStr "ValueError")))
|}.

Definition returns_true : function pyval := {|
  arguments_of := ["dispatcher"; "tracker"; "domain"];
  truth_value := true;
  call := λ dispatcher tracker domain,
    then_return (Dispatcher.utter_message (PStr "hello") ∅ dispatcher)
      dispatcher (inr (PBool true))
|}.

Definition false_callable : function pyval := {|
  arguments_of := ["dispatcher"; "tracker"; "domain"];
  truth_value := false;
  call := call greet
|}.

Definition greet_action : Action pyval := {|
  Action_name := "greet";
  Action_run_arguments := arguments_of greet;
  Action_run_call := call greet
|}.

Definition greet_class : class pyval := {|
  class_module := "actions";
  class_abstract := false;
  class_new := inr (AnAction greet_action)
|}.

Definition built_in_class : class pyval := {|
  class_module := "rasa.core.actions";
  class_abstract := false;
  class_new := inl (Raised (PStr "TypeError"))
|}.

Definition short_class : class pyval := {|
  class_module := "actions";
  class_abstract := false;
  class_new :=
    inr (AnAction
           {| Action_name := "short";
              Action_run_arguments := ["dispatcher"];
              Action_run_call := call greet |})
|}.

(** ** Notions for the further properties *)

#[export] Instance level_eq_dec : EqDecision level.
Proof. solve_decision. Defined.

(** The test [register_package] puts on a subclass of [Action] before it
    registers it. *)
Definition discoverable {Tracker : Type} (action : class Tracker) : bool :=
  negb (String.prefix "rasa_core." (class_module action))
  && negb (String.prefix "rasa." (class_module action))
  && negb (String.prefix "rasa_sdk." (class_module action))
  && negb (String.prefix "rasa_core_sdk." (class_module action))
  && negb (class_abstract action).

(** The records of one level among those logged. *)
Definition at_level (l : level) (records : list log_record)
    : list log_record :=
  filter (λ r, r.1 = l) records.

(** ** Properties *)

Section properties.

Context {Tracker : Type}.
Variable Tracker_from_dict : pyval → exn + Tracker.
Variable dict_keys : gmap string pyval → list string.

Implicit Types (s : state Tracker) (f : function Tracker).
Implicit Types (e action_name : pyval) (events validated : list pyval).

Lemma logged_nil s : logged s [] = s.
Proof. destruct s as [ex lg]. unfold logged; simpl. by rewrite app_nil_r. Qed.

Lemma logged_app s (r1 r2 : list log_record) :
  logged (logged s r1) r2 = logged s (r1 ++ r2).
Proof. unfold logged; simpl. by rewrite app_assoc. Qed.

Lemma emit_logged (l : level) (t : log_text) s :
  emit l t s = (inr (), logged s [(l, t)]).
Proof. reflexivity. Qed.

Lemma bind_eq {A B : Type} (m : M Tracker A) (k : A → M Tracker B) s :
  (m ≫= k) s
  = match m s with
    | (inr x, s') => k x s'
    | (inl err, s') => (inl err, s')
    end.
Proof. reflexivity. Qed.

(** Unfold the plumbing of [M] around the calls of a method body. *)
Ltac unfold_M :=
  unfold actions_get, call_action, lift, get_actions, set_actions, raise;
  unfold mbind, M_bind, mret, M_ret;
  rewrite ?emit_logged.

(** One turn of the loop keeps what [accepted] keeps and logs what
    [diagnostic] says; it does not raise. *)
Lemma validate_event_spec action_name e validated s :
  validate_event action_name e validated s
  = (inr (validated ++ option_list (accepted e)),
     logged s (option_list (diagnostic action_name e))).
Proof.
  destruct e as [ | b | z | t | l | l | d | m r ];
    try (cbn; by rewrite app_nil_r).
  - unfold validate_event, diagnostic, accepted, dict_get; simpl.
    destruct (d !! "event") as [v|]; simpl.
    + destruct (py_truthy v); simpl.
      * by rewrite logged_nil.
      * by rewrite app_nil_r.
    + by rewrite app_nil_r.
  - unfold validate_event, diagnostic, accepted; simpl.
    destruct (decide (m = "rasa.core.events")) as [->|Hm].
    + reflexivity.
    + assert (String.eqb m "rasa.core.events" = false) as ->
        by (by apply String.eqb_neq).
      cbn. by rewrite app_nil_r.
Qed.

Lemma validate_loop_spec action_name events validated s :
  validate_loop action_name events validated s
  = (inr (validated ++ omap accepted events),
     logged s (omap (diagnostic action_name) events)).
Proof.
  revert validated s.
  induction events as [|e events IH]; intros validated s.
  - cbn. by rewrite app_nil_r, logged_nil.
  - cbn [validate_loop]. unfold mbind, M_bind.
    rewrite validate_event_spec, IH, logged_app.
    rewrite <- app_assoc. f_equal.
    + f_equal. f_equal. cbn [omap list_omap]. by destruct (accepted e).
    + f_equal. cbn [omap list_omap].
      by destruct (diagnostic action_name e).
Qed.

Lemma validate_events_list action_name events s :
  validate_events dict_keys (PList events) action_name s
  = (inr (omap accepted events),
     logged s (omap (diagnostic action_name) events)).
Proof. unfold validate_events; simpl. apply validate_loop_spec. Qed.

Lemma validate_events_spec (returned : pyval) action_name s :
  validate_events dict_keys returned action_name s
  = match py_iter dict_keys returned with
    | Some items =>
        (inr (omap accepted items),
         logged s (omap (diagnostic action_name) items))
    | None => (inl (TypeError returned), s)
    end.
Proof.
  unfold validate_events. destruct (py_iter dict_keys returned); [ | done ].
  apply validate_loop_spec.
Qed.

Lemma truthy_name (name : string) :
  py_truthy (PStr name) = true ↔ name ≠ "".
Proof.
  cbn. rewrite negb_true_iff. apply String.eqb_neq.
Qed.

(** The branch of [run] without an action name. *)
Lemma run_without_action (action_call : gmap string pyval) s :
  py_truthy (dict_get action_call "next_action") = false →
  run Tracker_from_dict dict_keys action_call s
  = (inr PNone, logged s [(WARNING, CallWithoutAction)]).
Proof. intros H. unfold run. by rewrite H. Qed.

(** The branch of [run] for a name the registry does not hold. *)
Lemma run_not_found (action_call : gmap string pyval) (name : string) s :
  action_call !! "next_action" = Some (PStr name) → name ≠ "" →
  actions (self s) !! name = None →
  run Tracker_from_dict dict_keys action_call s
  = (inl (NoRegisteredAction (PStr name)),
     logged s [(DEBUG, ReceivedRequest (PStr name))]).
Proof.
  intros Hreq Hname Hnone. unfold run, dict_get. rewrite Hreq.
  apply truthy_name in Hname. rewrite Hname.
  unfold_M. cbn [py_hashable logged self actions]. by rewrite Hnone.
Qed.

(** The branch of [run] for a name whose callable is false. *)
Lemma run_found_false (action_call : gmap string pyval) (name : string)
    f s :
  action_call !! "next_action" = Some (PStr name) → name ≠ "" →
  actions (self s) !! name = Some f → truth_value f = false →
  run Tracker_from_dict dict_keys action_call s
  = (inl (NoRegisteredAction (PStr name)),
     logged s [(DEBUG, ReceivedRequest (PStr name))]).
Proof.
  intros Hreq Hname Hf Htruth. unfold run, dict_get. rewrite Hreq.
  apply truthy_name in Hname. rewrite Hname.
  unfold_M. cbn [py_hashable logged self actions]. rewrite Hf.
  cbn [not_action]. by rewrite Htruth.
Qed.

(** The branch of [run] for a registered name, up to the return of the
    called function. *)
Lemma run_found (action_call : gmap string pyval) (name : string) f
    (tracker : Tracker) (result : pyval)
    (dispatcher : CollectingDispatcher) s :
  action_call !! "next_action" = Some (PStr name) → name ≠ "" →
  actions (self s) !! name = Some f → truth_value f = true →
  Tracker_from_dict (dict_get action_call "tracker") = inr tracker →
  call f Dispatcher.init tracker
    (dict_get_default action_call "domain" (PDict ∅))
  = (inr result, dispatcher) →
  run Tracker_from_dict dict_keys action_call s
  = match
      py_iter dict_keys (if py_truthy result then result else PList [])
    with
    | Some items =>
        (inr (_create_api_response (omap accepted items)
                (messages dispatcher)),
         logged s
           ((DEBUG, ReceivedRequest (PStr name))
            :: omap (diagnostic (PStr name)) items
            ++ [(DEBUG, FinishedRunning (PStr name))]))
    | None =>
        (inl (TypeError result),
         logged s [(DEBUG, ReceivedRequest (PStr name))])
    end.
Proof.
  intros Hreq Hname Hf Htruth Htr Hcall.
  assert (dict_get action_call "next_action" = PStr name) as Hn
    by (unfold dict_get; by rewrite Hreq).
  unfold run. rewrite Hn. apply truthy_name in Hname. rewrite Hname.
  unfold_M. cbn [py_hashable logged self actions]. rewrite Hf.
  cbn [not_action]. rewrite Htruth. cbn [negb]. rewrite Htr, Hcall.
  rewrite validate_events_spec.
  destruct (py_truthy result) eqn:Hres; cbn [negb].
  - destruct (py_iter dict_keys result) as [items|]; [ | done ].
    rewrite emit_logged, !logged_app. done.
  - cbn [py_iter omap list_omap]. rewrite emit_logged, !logged_app. done.
Qed.

(** A call of a message method raises when a keyword has the name of a
    parameter, and appends its message otherwise. *)
Lemma utter_spec (u : Dispatcher.utterance Tracker)
    (keywords : gmap string pyval) (self : CollectingDispatcher) :
  Dispatcher.utter u keywords self
  = match find (Dispatcher.has_key keywords) (Dispatcher.parameters u) with
    | Some k => inl (TypeError (PStr k))
    | None =>
        inr (Dispatcher.append self (Dispatcher.message_of (u, keywords)))
    end.
Proof.
  destruct u; cbn [Dispatcher.utter Dispatcher.parameters];
    unfold Dispatcher.utter_custom_message, Dispatcher.utter_elements,
      Dispatcher.utter_message, Dispatcher.utter_button_message,
      Dispatcher.utter_attachment, Dispatcher.utter_button_template,
      Dispatcher.utter_template, Dispatcher.utter_custom_json,
      Dispatcher.utter_image_url, Dispatcher.bind_kwargs;
    try (by destruct (find _ _)).
  cbn [find]. destruct (Dispatcher.has_key keywords "self") eqn:Hself;
    [ done | ]. by rewrite Hself.
Qed.

Lemma utter_appends (u : Dispatcher.utterance Tracker)
    (keywords : gmap string pyval) (self self' : CollectingDispatcher) :
  Dispatcher.utter u keywords self = inr self' →
  messages self' = messages self ++ [Dispatcher.message_of (u, keywords)].
Proof.
  rewrite utter_spec. destruct (find _ _); [ done | ]. by intros [= <-].
Qed.

Lemma utter_all_appends
    (calls : list (Dispatcher.utterance Tracker * gmap string pyval))
    (self self' : CollectingDispatcher) :
  Dispatcher.utter_all calls self = inr self' →
  messages self' = messages self ++ (Dispatcher.message_of <$> calls).
Proof.
  revert self. induction calls as [|[u keywords] calls IH]; intros self.
  - cbn. intros [= <-]. by rewrite app_nil_r.
  - cbn [Dispatcher.utter_all fst snd].
    destruct (Dispatcher.utter u keywords self) as [err | self1] eqn:Hu;
      [ done | ].
    intros Hrest. rewrite (IH _ Hrest), (utter_appends _ _ _ _ Hu).
    by rewrite <- app_assoc.
Qed.

(** *** The event validator *)

(** C2 (amended): on every list of returned items [validate_events] never
    raises; it keeps a dict exactly when the dict holds a true value under
    [event] (a dict that has the key with a false value is dropped), drops
    every other dict with an error record naming the action and the item,
    drops every item that is neither a dict nor an object of
    [rasa.core.events] with an error record, and returns the kept items in
    the order they came in.  On
    [[{event: "slot", name: "x", value: 1}, {foo: "bar"}, "not-a-record"]]
    it returns [[{event: "slot", name: "x", value: 1}]] and logs two
    errors. *)
Theorem validate_events_keeps_dicts_with_true_event action_name s :
  (∀ events,
     validate_events dict_keys (PList events) action_name s
     = (inr (omap accepted events),
        logged s (omap (diagnostic action_name) events)))
  ∧ (∀ d,
       fst (validate_events dict_keys (PList [PDict d]) action_name s)
         = inr [PDict d]
       ↔ ∃ v, d !! "event" = Some v ∧ py_truthy v = true)
  ∧ (∀ d,
       ¬ (∃ v, d !! "event" = Some v ∧ py_truthy v = true) →
       validate_events dict_keys (PList [PDict d]) action_name s
       = (inr [],
          logged s [(ERROR, EventWithoutProperty action_name (PDict d))]))
  ∧ (∀ e,
       is_dict e = None → type_module e ≠ "rasa.core.events" →
       validate_events dict_keys (PList [e]) action_name s
       = (inr [], logged s [(ERROR, InvalidEvent action_name e)]))
  ∧ validate_events dict_keys
      (PList [slot_x; PDict {["foo" := PStr "bar"]}; PStr "not-a-record"])
      action_name s
    = (inr [slot_x],
       logged s
         [(ERROR,
           EventWithoutProperty action_name (PDict {["foo" := PStr "bar"]}));
          (ERROR, InvalidEvent action_name (PStr "not-a-record"))]).
Proof.
  split; [ intros; apply validate_events_list | ].
  split; [ | split; [ | split ] ].
  - intros d. rewrite validate_events_list. cbn.
    destruct (d !! "event") as [v|]; [ destruct (py_truthy v) eqn:Hv | ].
    + split; [ eauto | done ].
    + split; [ done | ]. intros (v' & [= <-] & Hv'). congruence.
    + split; [ done | ]. by intros (v' & [=] & _).
  - intros d Hd. rewrite validate_events_list. cbn.
    destruct (d !! "event") as [v|]; [ destruct (py_truthy v) eqn:Hv | ];
      try done.
    exfalso. eauto.
  - intros e He Hm. rewrite validate_events_list.
    destruct e as [ | b | z | t | l | l | d | m r ]; try done.
    cbn in Hm. cbn. by destruct (decide (m = "rasa.core.events")).
  - by rewrite validate_events_list.
Qed.

(** C9: a dict whose [event] key is there with a false value (the empty
    text, [None], [0], [False], ...) is dropped wherever it stands in the
    returned list, with the error record a dict without the key gets; a
    dict is kept only for a true value under the key. *)
Theorem validate_events_drops_false_event
    action_name s (before after : list pyval) d v :
  d !! "event" = Some v → py_truthy v = false →
  validate_events dict_keys (PList (before ++ PDict d :: after)) action_name s
  = (inr (omap accepted before ++ omap accepted after),
     logged s
       (omap (diagnostic action_name) before
        ++ (ERROR, EventWithoutProperty action_name (PDict d))
        :: omap (diagnostic action_name) after))
  ∧ validate_events dict_keys (PList [PDict d]) action_name s
    = (inr [],
       logged s [(ERROR, EventWithoutProperty action_name (PDict d))])
  ∧ validate_events dict_keys (PList [PDict (delete "event" d)]) action_name s
    = (inr [],
       logged s
         [(ERROR,
           EventWithoutProperty action_name (PDict (delete "event" d)))]).
Proof.
  intros Hd Hv. rewrite !validate_events_list.
  rewrite !omap_app. cbn. rewrite Hd, Hv, lookup_delete_eq. done.
Qed.

(** C6: an object of [rasa.core.events] is replaced by the record its
    [as_dict()] returns, which takes the object's place among the kept
    items; a warning is logged, nothing is raised, and the rest of the
    list is treated as it would be on its own.  A call of [run] whose
    function (a true value, so that it is called) returns such a list
    returns its response, with the record among the events. *)
Theorem validate_events_converts_rasa_core_events
    action_name s (before after : list pyval) r :
  validate_events dict_keys
    (PList (before ++ PObj "rasa.core.events" r :: after)) action_name s
  = (inr (omap accepted before ++ r :: omap accepted after),
     logged s
       (omap (diagnostic action_name) before
        ++ (WARNING, RasaCoreEvent)
        :: omap (diagnostic action_name) after))
  ∧ validate_events dict_keys (PList before) action_name s
    = (inr (omap accepted before),
       logged s (omap (diagnostic action_name) before))
  ∧ validate_events dict_keys (PList after) action_name s
    = (inr (omap accepted after),
       logged s (omap (diagnostic action_name) after))
  ∧ ∀ (action_call : gmap string pyval) (name : string) f
      (tracker : Tracker) (dispatcher : CollectingDispatcher),
      action_call !! "next_action" = Some (PStr name) → name ≠ "" →
      actions (self s) !! name = Some f → truth_value f = true →
      Tracker_from_dict (dict_get action_call "tracker") = inr tracker →
      call f Dispatcher.init tracker
        (dict_get_default action_call "domain" (PDict ∅))
      = (inr (PList (before ++ PObj "rasa.core.events" r :: after)),
         dispatcher) →
      fst (run Tracker_from_dict dict_keys action_call s)
      = inr (_create_api_response
               (omap accepted before ++ r :: omap accepted after)
               (messages dispatcher)).
Proof.
  rewrite !validate_events_list. rewrite !omap_app.
  split; [ done | ]. split; [ done | ]. split; [ done | ].
  intros action_call name f tracker dispatcher Hreq Hname Hf Ht Htr Hcall.
  rewrite (run_found _ _ _ _ _ _ _ Hreq Hname Hf Ht Htr Hcall).
  assert (py_truthy (PList (before ++ PObj "rasa.core.events" r :: after))
          = true) as -> by (by destruct before).
  cbn [py_iter fst]. by rewrite omap_app.
Qed.

(** *** Dispatch *)

(** C1 (amended): for a function registered under a name that is not the
    empty text and whose truth value is true (as that of every function
    is), when the tracker can be built from the request and the function
    returns events (a list, or anything that can be iterated over, or a
    false value, taken as no events), [run] returns the record whose
    [events] are the returned events after [validate_events] and whose
    [responses] are the messages the function left in the dispatcher
    created for the call: when the function made the calls [calls] on it,
    these are the messages of the calls, in order. *)
Theorem run_returns_events_and_responses
    (action_call : gmap string pyval) (name : string) f
    (tracker : Tracker) (result : pyval) events
    (dispatcher : CollectingDispatcher) s :
  action_call !! "next_action" = Some (PStr name) → name ≠ "" →
  actions (self s) !! name = Some f → truth_value f = true →
  Tracker_from_dict (dict_get action_call "tracker") = inr tracker →
  call f Dispatcher.init tracker
    (dict_get_default action_call "domain" (PDict ∅))
  = (inr result, dispatcher) →
  py_truthy result = true ∧ py_iter dict_keys result = Some events
  ∨ py_truthy result = false ∧ events = [] →
  ∃ validated,
    (∀ s', fst (validate_events dict_keys (PList events) (PStr name) s')
           = inr validated)
    ∧ fst (run Tracker_from_dict dict_keys action_call s)
      = inr (PDict (<["events" := PList validated]>
                      {["responses" := PList (messages dispatcher)]}))
    ∧ self (snd (run Tracker_from_dict dict_keys action_call s)) = self s
    ∧ ∀ calls : list (Dispatcher.utterance Tracker * gmap string pyval),
        Dispatcher.utter_all calls Dispatcher.init = inr dispatcher →
        messages dispatcher = Dispatcher.message_of <$> calls.
Proof.
  intros Hreq Hname Hf Htruth Htr Hcall Hres.
  exists (omap accepted events). split; [ | split; [ | split ] ].
  - intros s'. by rewrite validate_events_list.
  - rewrite (run_found _ _ _ _ _ _ _ Hreq Hname Hf Htruth Htr Hcall).
    destruct Hres as [[-> ->] | [-> ->]]; done.
  - rewrite (run_found _ _ _ _ _ _ _ Hreq Hname Hf Htruth Htr Hcall).
    destruct Hres as [[-> ->] | [-> ->]]; done.
  - intros calls Hcalls. by rewrite (utter_all_appends _ _ _ Hcalls).
Qed.

(** C4 (amended): for a request whose [next_action] is a text other than
    the empty one and not a key of the registry, [run] raises the
    exception "No registered Action found for name ..." with that name,
    after one debug record; it returns no response and leaves the
    registry as it was. *)
Theorem run_unknown_action_raises
    (action_call : gmap string pyval) (name : string) s :
  action_call !! "next_action" = Some (PStr name) → name ≠ "" →
  actions (self s) !! name = None →
  run Tracker_from_dict dict_keys action_call s
  = (inl (NoRegisteredAction (PStr name)),
     logged s [(DEBUG, ReceivedRequest (PStr name))])
  ∧ self (snd (run Tracker_from_dict dict_keys action_call s)) = self s.
Proof.
  intros Hreq Hname Hnone.
  by rewrite (run_not_found _ _ _ Hreq Hname Hnone).
Qed.

(** C7: for a request without [next_action] (the key is not there, or
    holds [None]), [run] logs the warning "Received an action call without
    an action.", raises nothing, returns [None] and leaves the registry as
    it was. *)
Theorem run_without_next_action (action_call : gmap string pyval) s :
  action_call !! "next_action" = None
  ∨ action_call !! "next_action" = Some PNone →
  run Tracker_from_dict dict_keys action_call s
  = (inr PNone, logged s [(WARNING, CallWithoutAction)])
  ∧ self (snd (run Tracker_from_dict dict_keys action_call s)) = self s.
Proof.
  intros Hreq.
  assert (py_truthy (dict_get action_call "next_action") = false) as H
    by (unfold dict_get; by destruct Hreq as [-> | ->]).
  by rewrite (run_without_action _ _ H).
Qed.

(** C10: for a request whose [next_action] is the empty text, [run] takes
    the branch of the missing name: it logs the warning and returns
    [None], and raises nothing, whatever the registry holds. *)
Theorem run_empty_next_action (action_call : gmap string pyval) s :
  action_call !! "next_action" = Some (PStr "") →
  run Tracker_from_dict dict_keys action_call s
  = (inr PNone, logged s [(WARNING, CallWithoutAction)])
  ∧ ∀ e, fst (run Tracker_from_dict dict_keys action_call s)
         ≠ inl (NoRegisteredAction e).
Proof.
  intros Hreq.
  assert (py_truthy (dict_get action_call "next_action") = false) as H
    by (unfold dict_get; by rewrite Hreq).
  by rewrite (run_without_action _ _ H).
Qed.

(** *** Registration *)

Lemma register_function_spec (name : string) f s :
  register_function name f s
  = if decide (length (arguments_of f) < 3) then
      (inl (TooFewParameters (length (arguments_of f))),
       logged s [(INFO, RegisteredFunction name)])
    else
      (inr (),
       {| self := {| actions := <[name := f]> (actions (self s)) |};
          logger := logger s ++ [(INFO, RegisteredFunction name)] |}).
Proof.
  unfold register_function. unfold_M.
  by destruct (decide (length (arguments_of f) < 3)).
Qed.

(** C3 (amended): [register_function] raises its exception exactly when
    the function has fewer than three parameters; a failed registration
    leaves the registry as it was (the log record is written all the
    same), and a function with three parameters, or more, is entered
    under the name. *)
Theorem register_function_checks_arity (name : string) f s :
  ((∃ x : exn, fst (register_function name f s) = inl x)
   ↔ length (arguments_of f) < 3)
  ∧ (length (arguments_of f) < 3 →
     register_function name f s
     = (inl (TooFewParameters (length (arguments_of f))),
        logged s [(INFO, RegisteredFunction name)])
     ∧ self (snd (register_function name f s)) = self s)
  ∧ (length (arguments_of f) = 3 →
     fst (register_function name f s) = inr ()
     ∧ actions (self (snd (register_function name f s))) !! name = Some f)
  ∧ (3 < length (arguments_of f) →
     fst (register_function name f s) = inr ()
     ∧ actions (self (snd (register_function name f s))) !! name = Some f).
Proof.
  rewrite register_function_spec.
  destruct (decide (length (arguments_of f) < 3)) as [Hlt|Hge]; cbn.
  - split; [ split; eauto | ].
    split; [ done | ]. split; intros; lia.
  - split; [ split; [ by intros [x [=]] | intros; lia ] | ].
    split; [ intros; lia | ].
    split; intros _; (split; [ done | apply lookup_insert_eq ]).
Qed.

Lemma keeps_same (names : list string) s s' :
  self s' = self s → keeps names s s'.
Proof. intros H k. by rewrite H. Qed.

Lemma keeps_trans (n1 n2 : list string) s1 s2 s3 :
  keeps n1 s1 s2 → keeps n2 s2 s3 → keeps (n1 ++ n2) s1 s3.
Proof.
  intros H1 H2 k. destruct (H1 k) as [H1a H1b], (H2 k) as [H2a H2b].
  split; [ | by auto ].
  intros Hk. rewrite elem_of_app in Hk.
  rewrite H2a, H1a; [ done | | ]; intros ?; apply Hk; by auto.
Qed.

Lemma keeps_more (n1 n2 : list string) s s' :
  n1 ⊆ n2 → keeps n1 s s' → keeps n2 s s'.
Proof.
  intros Hsub H k. destruct (H k) as [Ha Hb]. split; [ | done ].
  intros Hk. apply Ha. intros Hin. by apply Hk, Hsub.
Qed.

Lemma register_function_keeps (name : string) f s :
  keeps [name] s (snd (register_function name f s)).
Proof.
  rewrite register_function_spec.
  destruct (decide (length (arguments_of f) < 3)); [ by apply keeps_same | ].
  intros k. cbn. split.
  - intros Hk. apply lookup_insert_ne. intros ->. apply Hk. by left.
  - intros Hsome. destruct (decide (name = k)) as [->|Hne].
    + rewrite lookup_insert_eq. eauto.
    + by rewrite lookup_insert_ne.
Qed.

Lemma register_action_keeps (action : registrable Tracker) s :
  keeps (registrable_names action) s (snd (register_action action s)).
Proof.
  unfold register_action.
  destruct action as [c | o]; cbn [registrable_names].
  - destruct (String.prefix "rasa." (class_module c)).
    + unfold_M. by apply keeps_same.
    + destruct (class_new c) as [x | o]; unfold_M.
      * by apply keeps_same.
      * destruct o as [a | v]; [ apply register_function_keeps | ].
        by apply keeps_same.
  - unfold_M. destruct o as [a | v]; [ apply register_function_keeps | ].
    by apply keeps_same.
Qed.

Lemma for_each_keeps {A : Type} (names : A → list string)
    (body : A → M Tracker ()) (l : list A) s :
  (∀ x s0, keeps (names x) s0 (snd (body x s0))) →
  keeps (x ← l; names x) s (snd (for_each l body s)).
Proof.
  intros Hbody. revert s.
  induction l as [|x l IH]; intros s; [ by apply keeps_same | ].
  cbn [for_each]. rewrite bind_eq.
  specialize (Hbody x s). specialize (IH (snd (body x s))).
  destruct (body x s) as [[err | []] s1]; cbn [snd] in *.
  - apply (keeps_more (names x)); [ | done ].
    intros k Hk. cbn. apply elem_of_app. by left.
  - cbn. by apply (keeps_trans _ _ _ s1).
Qed.

Lemma register_package_keeps (package : string)
    (import_submodules : exn + ()) (all_subclasses : list (class Tracker)) s :
  keeps (c ← all_subclasses; registrable_names (AClass c)) s
    (snd (register_package package import_submodules all_subclasses s)).
Proof.
  unfold register_package. rewrite bind_eq.
  match goal with
  | |- context [for_each _ ?b] => set (body := b)
  end.
  assert (∀ c s0, keeps (registrable_names (AClass c)) s0 (snd (body c s0)))
    as Hbody.
  { intros c s0. unfold body.
    destruct (_ && _); [ apply register_action_keeps | by apply keeps_same ]. }
  pose proof (λ s0, for_each_keeps (λ c, registrable_names (AClass c)) body
                      all_subclasses s0 Hbody) as Hall.
  destruct import_submodules as [x | []].
  - destruct x; try (by apply keeps_same).
    rewrite emit_logged.
    eapply (keeps_trans [] _ s); [ | apply Hall ].
    by apply keeps_same.
  - apply Hall.
Qed.

(** [run] and [validate_events] write to the logger only. *)
Lemma validate_events_self (returned : pyval) action_name s :
  self (snd (validate_events dict_keys returned action_name s)) = self s.
Proof.
  rewrite validate_events_spec. by destruct (py_iter dict_keys returned).
Qed.

Lemma run_self (action_call : gmap string pyval) s :
  self (snd (run Tracker_from_dict dict_keys action_call s)) = self s.
Proof.
  unfold run. generalize (dict_get action_call "next_action") as x.
  intros x. destruct (py_truthy x); [ | done ].
  unfold_M. destruct (py_hashable x); [ | done ]. cbn [logged self].
  destruct x as [ | b | z | name | l | l | d | m r ]; try done.
  destruct (actions (self s) !! name) as [f|]; [ | done ].
  cbn [not_action]. destruct (truth_value f); [ | done ]. cbn [negb].
  destruct (Tracker_from_dict _) as [x | tracker]; [ done | ].
  destruct (call f _ _ _) as [[x | result] dispatcher]; [ done | ].
  rewrite validate_events_spec.
  destruct (py_iter dict_keys _) as [items|]; [ | done ].
  by rewrite emit_logged.
Qed.

Lemma perform_keeps (o : operation Tracker) s :
  keeps (registered_names o) s (snd (perform Tracker_from_dict dict_keys o s)).
Proof.
  destruct o; cbn [perform registered_names].
  - apply register_function_keeps.
  - apply register_action_keeps.
  - apply register_package_keeps.
  - apply keeps_same. rewrite bind_eq.
    pose proof (validate_events_self events action_name s) as H.
    by destruct (validate_events dict_keys events action_name s) as [[?|?] ?].
  - apply keeps_same. rewrite bind_eq.
    pose proof (run_self action_call s) as H.
    by destruct (run Tracker_from_dict dict_keys action_call s) as [[?|?] ?].
Qed.

Lemma perform_all_keeps (ops : list (operation Tracker)) s :
  keeps (o ← ops; registered_names o) s
    (perform_all Tracker_from_dict dict_keys ops s).
Proof.
  revert s. induction ops as [|o ops IH]; intros s; [ by apply keeps_same | ].
  cbn.
  apply (keeps_trans _ _ _ (snd (perform Tracker_from_dict dict_keys o s))).
  - apply perform_keeps.
  - apply IH.
Qed.

Lemma entries_under_lookup (name : string)
    (a : gmap string (function Tracker)) f :
  a !! name = Some f → length (entries_under name a) = 1.
Proof.
  intros Hf. unfold entries_under.
  rewrite <- (map_to_list_delete _ _ _ Hf).
  rewrite filter_cons_True by done. cbn. f_equal.
  destruct (filter _ (map_to_list (delete name a))) as [|[k g] rest] eqn:Hfl;
    [ done | ].
  assert ((k, g) ∈ filter (λ kv : string * function Tracker, kv.1 = name)
                     (map_to_list (delete name a))) as Hin
    by (rewrite Hfl; left).
  apply list_elem_of_filter in Hin as [Hk Hin]. cbn in Hk. subst k.
  apply elem_of_map_to_list in Hin. by rewrite lookup_delete_eq in Hin.
Qed.

(** C8: once [register_function] has entered a function under a name,
    the name yields that function; no sequence of operations of the
    executor takes the name out of the registry, and it still yields the
    function unless one of them registers under the same name; calls of
    [run] leave the whole registry as it was.  Registering under the name
    again leaves one entry under it, the function registered last. *)
Theorem registrations_are_kept (name : string) f s
    (ops : list (operation Tracker)) :
  (3 ≤ length (arguments_of f))%nat →
  let s1 := snd (register_function name f s) in
  let s2 := perform_all Tracker_from_dict dict_keys ops s1 in
  actions (self s1) !! name = Some f
  ∧ is_Some (actions (self s2) !! name)
  ∧ (name ∉ (o ← ops; registered_names o) →
     actions (self s2) !! name = Some f)
  ∧ (∀ action_call,
       self (snd (run Tracker_from_dict dict_keys action_call s1)) = self s1)
  ∧ ∀ f2, (3 ≤ length (arguments_of f2))%nat →
      let s3 := snd (register_function name f2 s1) in
      actions (self s3) !! name = Some f2
      ∧ length (entries_under name (actions (self s3))) = 1.
Proof.
  intros Hf s1 s2.
  assert (actions (self s1) !! name = Some f) as H1.
  { unfold s1. rewrite register_function_spec.
    destruct (decide _); [ lia | ]. apply lookup_insert_eq. }
  destruct (perform_all_keeps ops s1 name) as [Hsame Hsome].
  split; [ done | ]. split; [ apply Hsome; by rewrite H1 | ].
  split; [ intros Hn; unfold s2; by rewrite Hsame | ].
  split; [ intros; apply run_self | ].
  intros f2 Hf2 s3.
  assert (actions (self s3) !! name = Some f2) as H3.
  { unfold s3. rewrite register_function_spec.
    destruct (decide _); [ lia | ]. apply lookup_insert_eq. }
  split; [ done | ]. by apply (entries_under_lookup _ _ f2).
Qed.

(** *** The messages of the dispatcher *)




End properties.

(** ** The examples of the specification, and inputs that tell the
    behaviours apart *)

(** The three characters of a text of four bytes. *)
Example characters_of_text : characters "né!" = ["n"; "é"; "!"].
Proof. reflexivity. Qed.

(** The end-to-end example: [greet] says "hello" and returns one slot
    event. *)
Example run_greet :
  fst (run sample_from_dict sample_dict_keys (request (PStr "greet"))
         (snd (register_function "greet" greet fresh)))
  = inr (PDict (<["events" := PList [slot_x]]>
                  {["responses" :=
                      PList [PDict {["text" := PStr "hello"]}]]})).
Proof. reflexivity. Qed.

(** [greet], registered under its name, on the request that names it. *)
Lemma run_returns_events_and_responses_witness :
  ∃ validated,
    (∀ s' : state pyval,
       fst (validate_events sample_dict_keys (PList [slot_x])
              (PStr "greet") s')
       = inr validated)
    ∧ fst (run sample_from_dict sample_dict_keys (request (PStr "greet"))
             (snd (register_function "greet" greet fresh)))
      = inr (PDict (<["events" := PList validated]>
                      {["responses" := PList (messages said_hello)]}))
    ∧ self (snd (run sample_from_dict sample_dict_keys
                   (request (PStr "greet"))
                   (snd (register_function "greet" greet fresh))))
      = self (snd (register_function "greet" greet fresh))
    ∧ ∀ calls : list (Dispatcher.utterance pyval * gmap string pyval),
        Dispatcher.utter_all calls Dispatcher.init = inr said_hello →
        messages said_hello = Dispatcher.message_of <$> calls.
Proof.
  apply (run_returns_events_and_responses sample_from_dict
           sample_dict_keys (request (PStr "greet")) "greet" greet
           (PDict ∅) (PList [slot_x]) [slot_x] said_hello
           (snd (register_function "greet" greet fresh)));
    [ reflexivity | discriminate | reflexivity | reflexivity | reflexivity
    | reflexivity | left; split; reflexivity ].
Defined.

(** A function registered under the empty text is in the registry, and a
    request naming it gets no response. *)
Lemma run_skips_function_named_by_empty_text :
  let s := snd (register_function "" greet fresh) in
  actions (self s) !! "" = Some greet
  ∧ request (PStr "") !! "next_action" = Some (PStr "")
  ∧ run sample_from_dict sample_dict_keys (request (PStr "")) s
    = (inr PNone, logged s [(WARNING, CallWithoutAction)]).
Proof. repeat split; reflexivity. Qed.

(** A callable object that is false is in the registry after its
    registration, and a request naming it is told that no action is
    registered. *)
Lemma run_does_not_call_false_callable :
  let s := snd (register_function "collect" false_callable fresh) in
  actions (self s) !! "collect" = Some false_callable
  ∧ run sample_from_dict sample_dict_keys (request (PStr "collect")) s
    = (inl (NoRegisteredAction (PStr "collect")),
       logged s [(DEBUG, ReceivedRequest (PStr "collect"))]).
Proof. repeat split; reflexivity. Qed.

(** A dict that has the key [event], with the empty text under it, is
    dropped. *)
Lemma validate_events_drops_dict_with_empty_event :
  let d : gmap string pyval := {["event" := PStr ""]} in
  is_Some (d !! "event")
  ∧ validate_events sample_dict_keys (PList [PDict d]) (PStr "greet") fresh
    = (inr [],
       logged fresh
         [(ERROR, EventWithoutProperty (PStr "greet") (PDict d))]).
Proof. split; [ eexists | ]; reflexivity. Qed.

(** The same dict, standing alone in the returned list. *)
Lemma validate_events_drops_false_event_witness :
  validate_events sample_dict_keys
    (PList ([] ++ PDict {["event" := PStr ""]} :: []))
    (PStr "greet") fresh
  = (inr (omap accepted [] ++ omap accepted []),
     logged fresh
       (omap (diagnostic (PStr "greet")) []
        ++ (ERROR,
            EventWithoutProperty (PStr "greet")
              (PDict {["event" := PStr ""]}))
        :: omap (diagnostic (PStr "greet")) []))
  ∧ validate_events sample_dict_keys (PList [PDict {["event" := PStr ""]}])
      (PStr "greet") fresh
    = (inr [],
       logged fresh
         [(ERROR,
           EventWithoutProperty (PStr "greet")
             (PDict {["event" := PStr ""]}))])
  ∧ validate_events sample_dict_keys
      (PList [PDict (delete "event" {["event" := PStr ""]})])
      (PStr "greet") fresh
    = (inr [],
       logged fresh
         [(ERROR,
           EventWithoutProperty (PStr "greet")
             (PDict (delete "event" {["event" := PStr ""]})))]).
Proof.
  apply (validate_events_drops_false_event sample_dict_keys (PStr "greet")
           fresh [] [] {["event" := PStr ""]} (PStr ""));
    reflexivity.
Defined.

(** A function of four parameters is registered. *)
Lemma register_function_accepts_four_parameters :
  length (arguments_of four_parameters) = 4
  ∧ fst (register_function "action_a" four_parameters fresh) = inr ()
  ∧ actions (self (snd (register_function "action_a" four_parameters fresh)))
      !! "action_a"
    = Some four_parameters.
Proof. repeat split; reflexivity. Qed.

(** The empty text is not a registered name, and a request naming it
    raises nothing. *)
Lemma run_unregistered_empty_name_returns_none :
  actions (self fresh) !! "" = None
  ∧ request (PStr "") !! "next_action" = Some (PStr "")
  ∧ run sample_from_dict sample_dict_keys (request (PStr "")) fresh
    = (inr PNone, logged fresh [(WARNING, CallWithoutAction)]).
Proof. repeat split; reflexivity. Qed.

(** A request for ["unknown_x"] on an empty registry. *)
Lemma run_unknown_action_raises_witness :
  run sample_from_dict sample_dict_keys (request (PStr "unknown_x")) fresh
  = (inl (NoRegisteredAction (PStr "unknown_x")),
     logged fresh [(DEBUG, ReceivedRequest (PStr "unknown_x"))])
  ∧ self (snd (run sample_from_dict sample_dict_keys
                 (request (PStr "unknown_x")) fresh))
    = self fresh.
Proof.
  apply (run_unknown_action_raises sample_from_dict sample_dict_keys
           (request (PStr "unknown_x")) "unknown_x" fresh);
    [ reflexivity | discriminate | reflexivity ].
Defined.

(** A request with a tracker and a domain and nothing else. *)
Lemma run_without_next_action_witness :
  run sample_from_dict sample_dict_keys
    (<["tracker" := PDict ∅]> {["domain" := PDict ∅]}) fresh
  = (inr PNone, logged fresh [(WARNING, CallWithoutAction)])
  ∧ self (snd (run sample_from_dict sample_dict_keys
                 (<["tracker" := PDict ∅]> {["domain" := PDict ∅]}) fresh))
    = self fresh.
Proof.
  apply (run_without_next_action sample_from_dict sample_dict_keys
           (<["tracker" := PDict ∅]> {["domain" := PDict ∅]}) fresh).
  left. reflexivity.
Defined.

(** A request naming the empty text, with a function registered under
    it. *)
Lemma run_empty_next_action_witness :
  run sample_from_dict sample_dict_keys (request (PStr ""))
    (snd (register_function "" greet fresh))
  = (inr PNone,
     logged (snd (register_function "" greet fresh))
       [(WARNING, CallWithoutAction)])
  ∧ ∀ e, fst (run sample_from_dict sample_dict_keys (request (PStr ""))
                (snd (register_function "" greet fresh)))
         ≠ inl (NoRegisteredAction e).
Proof.
  apply (run_empty_next_action sample_from_dict sample_dict_keys
           (request (PStr "")) (snd (register_function "" greet fresh))).
  reflexivity.
Defined.

(** [greet] stays registered through two calls of [run] and the
    registration of another function. *)
Lemma registrations_are_kept_witness :
  let ops : list (operation pyval) :=
    [OpRun (request (PStr "greet"));
     OpRegisterFunction "other" four_parameters;
     OpRun (request (PStr "unknown_x"))] in
  let s1 := snd (register_function "greet" greet fresh) in
  let s2 := perform_all sample_from_dict sample_dict_keys ops s1 in
  actions (self s1) !! "greet" = Some greet
  ∧ is_Some (actions (self s2) !! "greet")
  ∧ ("greet" ∉ (o ← ops; registered_names o) →
     actions (self s2) !! "greet" = Some greet)
  ∧ (∀ action_call,
       self (snd (run sample_from_dict sample_dict_keys action_call s1))
       = self s1)
  ∧ ∀ f2, (3 ≤ length (arguments_of f2))%nat →
      let s3 := snd (register_function "greet" f2 s1) in
      actions (self s3) !! "greet" = Some f2
      ∧ length (entries_under "greet" (actions (self s3))) = 1.
Proof.
  intros ops.
  apply (registrations_are_kept sample_from_dict sample_dict_keys "greet"
           greet fresh ops).
  simpl. lia.
Defined.


(** ** Further properties of the executor *)

Section further_properties.

Context {Tracker : Type}.
Variable Tracker_from_dict : pyval → exn + Tracker.
Variable dict_keys : gmap string pyval → list string.

Implicit Types (s : state Tracker) (f : function Tracker).
Implicit Types (e action_name : pyval) (events validated : list pyval).

(** Open the binds of a method body, one call after the other. *)
Ltac step_M :=
  unfold actions_get, call_action, lift, get_actions, set_actions, raise;
  unfold mbind, M_bind, mret, M_ret;
  rewrite ?emit_logged.

(** *** More on the event validator *)

Lemma omap_cons_option_list {A B : Type} (g : A → option B) (x : A)
    (l : list A) :
  omap g (x :: l) = option_list (g x) ++ omap g l.
Proof. cbn. by destruct (g x). Qed.

Lemma option_list_length {A : Type} (o : option A) :
  (length (option_list o) ≤ 1)%nat.
Proof. destruct o; cbn; lia. Qed.

Lemma accepted_or_error action_name e :
  length (option_list (accepted e))
  + length (at_level ERROR (option_list (diagnostic action_name e)))
  = 1.
Proof.
  destruct e as [ | b | z | t | l | l | d | m r ]; try reflexivity.
  - unfold diagnostic. destruct (accepted (PDict d)); reflexivity.
  - cbn. destruct (decide (m = "rasa.core.events")); reflexivity.
Qed.

(** Every returned item is either kept (as it is or converted) or
    reported as an error, never both and never neither: the kept items
    and the error records add up to the items returned, and there are no
    more records than items. *)
Theorem validate_events_keeps_or_reports action_name events s :
  ∃ validated records,
    validate_events dict_keys (PList events) action_name s
    = (inr validated, logged s records)
    ∧ length validated + length (at_level ERROR records) = length events
    ∧ (length validated ≤ length events)%nat
    ∧ (length records ≤ length events)%nat.
Proof.
  exists (omap accepted events), (omap (diagnostic action_name) events).
  split; [ apply (validate_events_list dict_keys action_name events s) | ].
  induction events as [|e events (IH1 & IH2 & IH3)]; [ done | ].
  pose proof (accepted_or_error action_name e) as He.
  pose proof (option_list_length (diagnostic action_name e)) as Hd.
  rewrite !omap_cons_option_list. unfold at_level in *.
  rewrite filter_app, !length_app. cbn [length].
  unfold log_record in *. lia.
Qed.

(** Validating a list is validating its first part and then the rest:
    the kept items are appended and the records are logged in that
    order. *)
Theorem validate_events_app action_name (events1 events2 : list pyval) s :
  validate_events dict_keys (PList (events1 ++ events2)) action_name s
  = (validated1 ← validate_events dict_keys (PList events1) action_name;
     validated2 ← validate_events dict_keys (PList events2) action_name;
     mret (validated1 ++ validated2)) s.
Proof.
  rewrite bind_eq, !validate_events_list.
  rewrite bind_eq, validate_events_list.
  rewrite logged_app, !omap_app. reflexivity.
Qed.

Lemma accepted_plain e e' :
  accepted e = Some e' → type_module e ≠ "rasa.core.events" →
  e' = e
  ∧ (∃ d v, e = PDict d ∧ d !! "event" = Some v ∧ py_truthy v = true)
  ∧ accepted e' = Some e'
  ∧ ∀ action_name, diagnostic action_name e' = None.
Proof.
  destruct e as [ | b | z | t | l | l | d | m r ]; try done.
  - intros Hacc _. pose proof Hacc as Hacc'. cbn in Hacc.
    destruct (d !! "event") as [v|] eqn:Hd; [ | done ].
    destruct (py_truthy v) eqn:Hv; [ | done ].
    injection Hacc as <-. split; [ done | ]. split; [ by eauto | ].
    split; [ done | ]. intros action_name. unfold diagnostic.
    by rewrite Hacc'.
  - cbn. intros Hacc Hm. by destruct (decide (m = "rasa.core.events")).
Qed.

(** When the returned list holds no object of [rasa.core.events], every
    kept item is one of the returned items, a dict with a true value under
    [event], and validating the kept items again keeps them all and logs
    nothing. *)
Theorem validate_events_idempotent action_name action_name' events s s' :
  (∀ e, e ∈ events → type_module e ≠ "rasa.core.events") →
  ∃ validated,
    fst (validate_events dict_keys (PList events) action_name s) = inr validated
    ∧ (∀ e, e ∈ validated →
         e ∈ events
         ∧ ∃ d v, e = PDict d ∧ d !! "event" = Some v ∧ py_truthy v = true)
    ∧ validate_events dict_keys (PList validated) action_name' s'
      = (inr validated, s').
Proof.
  intros Hplain. exists (omap accepted events).
  split; [ by rewrite validate_events_list | ].
  split.
  - intros e' (e & He & Hacc)%list_elem_of_omap.
    destruct (accepted_plain e e' Hacc (Hplain e He)) as (-> & Hd & _).
    done.
  - rewrite validate_events_list.
    assert (omap accepted (omap accepted events) = omap accepted events
            ∧ omap (diagnostic action_name') (omap accepted events) = [])
      as [-> ->]; [ | by rewrite logged_nil ].
    induction events as [|e events IH]; [ done | ].
    destruct IH as [IH1 IH2].
    { intros e' He'. apply Hplain. by right. }
    cbn [omap list_omap]. destruct (accepted e) as [e'|] eqn:Hacc; [ | done ].
    destruct (accepted_plain e e' Hacc) as (-> & _ & Hacc' & Hdiag).
    { apply Hplain. by left. }
    cbn [omap list_omap]. rewrite Hacc', Hdiag. cbn. by rewrite IH1, IH2.
Qed.

Lemma validate_texts action_name (texts : list string) s :
  validate_loop action_name (PStr <$> texts) [] s
  = (inr [],
     logged s ((λ t, (ERROR, InvalidEvent action_name (PStr t))) <$> texts)).
Proof.
  rewrite validate_loop_spec. f_equal.
  - f_equal. induction texts as [|t texts IH]; [ done | ]. by cbn.
  - f_equal. induction texts as [|t texts IH]; [ done | ].
    cbn. do 2 f_equal. done.
Qed.

Lemma characters_concat (t : string) :
  foldr String.append "" (characters t) = t.
Proof.
  induction t as [|c t IH]; [ done | ].
  cbn [characters].
  destruct (continues t), (characters t) as [|p ps]; cbn in *;
    by rewrite <- IH.
Qed.

(** A handler that returns one event dict, and not a list of them, gets
    no event through: the loop runs over the keys of the dict, and each
    key is reported once as an invalid event, in the order of the keys.
    The same holds for a returned text: its characters, which put
    together are the text, are reported one by one, in their order. *)
Theorem validate_events_of_dict_or_text action_name s :
  (∀ d, dict_keys d ≡ₚ (map_to_list d).*1) →
  (∀ d : gmap string pyval,
     validate_events dict_keys (PDict d) action_name s
     = (inr [],
        logged s
          ((λ k, (ERROR, InvalidEvent action_name (PStr k)))
           <$> dict_keys d))
     ∧ length (dict_keys d) = size d
     ∧ (∀ k, k ∈ dict_keys d ↔ is_Some (d !! k))
     ∧ NoDup (dict_keys d))
  ∧ (∀ t : string,
       validate_events dict_keys (PStr t) action_name s
       = (inr [],
          logged s
            ((λ c, (ERROR, InvalidEvent action_name (PStr c)))
             <$> characters t))
       ∧ foldr String.append "" (characters t) = t).
Proof.
  intros Hkeys. split.
  - intros d. unfold validate_events. cbn [py_iter].
    split; [ apply validate_texts | ].
    split; [ by rewrite Hkeys, length_fmap, length_map_to_list | ].
    split.
    + intros k. rewrite Hkeys, list_elem_of_fmap. split.
      * intros ([k' v] & -> & Hkv%elem_of_map_to_list). by eauto.
      * intros [v Hv]. exists (k, v). split; [ done | ].
        by apply elem_of_map_to_list.
    + rewrite Hkeys. apply NoDup_fst_map_to_list.
  - intros t. unfold validate_events. cbn [py_iter].
    split; [ apply validate_texts | apply characters_concat ].
Qed.

(** *** More on dispatch *)

(** When building the tracker raises, or the called function raises, the
    exception leaves [run] as it is: no response, no "Finished running"
    record, and the messages the function had sent are dropped with its
    dispatcher. *)
Theorem run_propagates_exceptions
    (action_call : gmap string pyval) (name : string) f s :
  action_call !! "next_action" = Some (PStr name) → name ≠ "" →
  actions (self s) !! name = Some f → truth_value f = true →
  (∀ x, Tracker_from_dict (dict_get action_call "tracker") = inl x →
        run Tracker_from_dict dict_keys action_call s
        = (inl x, logged s [(DEBUG, ReceivedRequest (PStr name))]))
  ∧ (∀ (tracker : Tracker) x (dispatcher : CollectingDispatcher),
       Tracker_from_dict (dict_get action_call "tracker") = inr tracker →
       call f Dispatcher.init tracker
         (dict_get_default action_call "domain" (PDict ∅))
       = (inl x, dispatcher) →
       run Tracker_from_dict dict_keys action_call s
       = (inl x, logged s [(DEBUG, ReceivedRequest (PStr name))])).
Proof.
  intros Hreq Hname Hf Htruth.
  assert (dict_get action_call "next_action" = PStr name) as Hn
    by (unfold dict_get; by rewrite Hreq).
  apply truthy_name in Hname.
  split.
  - intros x Htr. unfold run. rewrite Hn, Hname. step_M.
    cbn [py_hashable logged self actions]. rewrite Hf.
    cbn [not_action]. rewrite Htruth. cbn [negb]. by rewrite Htr.
  - intros tracker x dispatcher Htr Hcall. unfold run. rewrite Hn, Hname.
    step_M. cbn [py_hashable logged self actions]. rewrite Hf.
    cbn [not_action]. rewrite Htruth. cbn [negb]. by rewrite Htr, Hcall.
Qed.

(** A callable that is registered and is a false value is not called:
    [run] raises the exception for an unknown action, as if the name were
    not in the registry. *)
Theorem run_does_not_find_false_callable
    (action_call : gmap string pyval) (name : string) f s :
  action_call !! "next_action" = Some (PStr name) → name ≠ "" →
  actions (self s) !! name = Some f → truth_value f = false →
  run Tracker_from_dict dict_keys action_call s
  = (inl (NoRegisteredAction (PStr name)),
     logged s [(DEBUG, ReceivedRequest (PStr name))])
  ∧ fst (run Tracker_from_dict dict_keys action_call s)
    = fst (run Tracker_from_dict dict_keys action_call
             {| self := {| actions := delete name (actions (self s)) |};
                logger := logger s |}).
Proof.
  intros Hreq Hname Hf Htruth.
  rewrite (run_found_false _ _ _ _ _ _ Hreq Hname Hf Htruth).
  split; [ done | ].
  rewrite (run_not_found _ _ _ _ _ Hreq Hname); [ done | ].
  cbn. apply lookup_delete_eq.
Qed.

(** A function that returns a true value that cannot be iterated over,
    [True] or a number other than 0, makes [run] raise a [TypeError]
    where the loop over the events starts. *)
Theorem run_raises_on_non_iterable_result
    (action_call : gmap string pyval) (name : string) f
    (tracker : Tracker) (result : pyval)
    (dispatcher : CollectingDispatcher) s :
  action_call !! "next_action" = Some (PStr name) → name ≠ "" →
  actions (self s) !! name = Some f → truth_value f = true →
  Tracker_from_dict (dict_get action_call "tracker") = inr tracker →
  call f Dispatcher.init tracker
    (dict_get_default action_call "domain" (PDict ∅))
  = (inr result, dispatcher) →
  result = PBool true ∨ (∃ z, z ≠ 0%Z ∧ result = PInt z) →
  run Tracker_from_dict dict_keys action_call s
  = (inl (TypeError result),
     logged s [(DEBUG, ReceivedRequest (PStr name))]).
Proof.
  intros Hreq Hname Hf Htruth Htr Hcall Hres.
  rewrite (run_found _ _ _ _ _ _ _ _ _ Hreq Hname Hf Htruth Htr Hcall).
  destruct Hres as [-> | (z & Hz & ->)]; [ done | ].
  cbn. by destruct (Z.eqb_spec z 0).
Qed.

(** A [next_action] that is true and cannot be a key of a dict, such as a
    list with items, makes the lookup in the registry raise a
    [TypeError]; the exception for an unknown action is not reached. *)
Theorem run_raises_on_unhashable_name
    (action_call : gmap string pyval) (v : pyval) s :
  action_call !! "next_action" = Some v →
  py_truthy v = true → py_hashable v = false →
  run Tracker_from_dict dict_keys action_call s
  = (inl (TypeError v), logged s [(DEBUG, ReceivedRequest v)]).
Proof.
  intros Hreq Hv Hh.
  assert (dict_get action_call "next_action" = v) as Hn
    by (unfold dict_get; by rewrite Hreq).
  unfold run. rewrite Hn, Hv. step_M. by rewrite Hh.
Qed.

(** [run] reads three keys of the request and nothing else. *)
Lemma run_reads (action_call action_call' : gmap string pyval) s :
  action_call !! "next_action" = action_call' !! "next_action" →
  action_call !! "tracker" = action_call' !! "tracker" →
  dict_get_default action_call "domain" (PDict ∅)
  = dict_get_default action_call' "domain" (PDict ∅) →
  run Tracker_from_dict dict_keys action_call s
  = run Tracker_from_dict dict_keys action_call' s.
Proof.
  intros H1 H2 H3. unfold run, dict_get. by rewrite H1, H2, H3.
Qed.

(** A request without [domain] is served as the same request with the
    empty dict for a domain. *)
Theorem run_defaults_domain (action_call : gmap string pyval) s :
  action_call !! "domain" = None →
  run Tracker_from_dict dict_keys action_call s
  = run Tracker_from_dict dict_keys (<["domain" := PDict ∅]> action_call) s.
Proof.
  intros Hd. apply run_reads.
  - by rewrite lookup_insert_ne.
  - by rewrite lookup_insert_ne.
  - unfold dict_get_default. by rewrite Hd, lookup_insert_eq.
Qed.

(** Keys of the request other than [next_action], [tracker] and [domain]
    play no part: setting or removing one changes neither the outcome of
    [run] nor the state it leaves. *)
Theorem run_ignores_other_keys
    (action_call : gmap string pyval) (k : string) (v : pyval) s :
  k ≠ "next_action" → k ≠ "tracker" → k ≠ "domain" →
  run Tracker_from_dict dict_keys (<[k := v]> action_call) s
  = run Tracker_from_dict dict_keys action_call s
  ∧ run Tracker_from_dict dict_keys (delete k action_call) s
    = run Tracker_from_dict dict_keys action_call s.
Proof.
  intros H1 H2 H3. split; apply run_reads; unfold dict_get_default;
    by rewrite ?lookup_insert_ne, ?lookup_delete_ne.
Qed.

(** *** More on registration *)

(** Registering a class of the user is registering the object the class
    builds; if building it raises, the exception leaves
    [register_action] with nothing changed.  An object that is not an
    [Action] is refused, again with nothing changed. *)
Theorem register_action_builds_the_class (c : class Tracker) s :
  String.prefix "rasa." (class_module c) = false →
  match class_new c with
  | inr o =>
      register_action (AClass c) s = register_action (AnObject o) s
  | inl x => register_action (AClass c) s = (inl x, s)
  end
  ∧ ∀ v, register_action (AnObject (NotAnActionObject v)) s
         = (inl NotAnAction, s).
Proof.
  intros Hm. split; [ | done ].
  unfold register_action. rewrite Hm.
  by destruct (class_new c) as [x | o].
Qed.

(** A class defined in a module of Rasa is skipped by [register_action]:
    a warning is logged, the class is not called, nothing is registered
    and nothing is raised, whatever the class is.  [register_package]
    passes such a class over before that, without the warning. *)
Theorem register_action_skips_built_in (c : class Tracker) s :
  String.prefix "rasa." (class_module c) = true →
  register_action (AClass c) s
  = (inr (), logged s [(WARNING, SkippingBuiltIn (class_module c))])
  ∧ ∀ package, register_package package (inr ()) [c] s = (inr (), s).
Proof.
  intros Hm. split.
  - unfold register_action. by rewrite Hm.
  - intros package. unfold register_package.
    rewrite !bind_eq. cbn [for_each]. rewrite Hm.
    by rewrite !andb_false_r, andb_false_l.
Qed.

(** An [ImportError] while the package is imported is logged and goes no
    further: the subclasses are registered as after an import without
    error.  Any other exception of the import leaves [register_package]
    before anything is registered or logged. *)
Theorem register_package_survives_import_error
    (package : string) (all_subclasses : list (class Tracker)) s :
  register_package package (inl ImportError) all_subclasses s
  = register_package package (inr ()) all_subclasses
      (logged s [(ERROR, FailedToRegisterPackage package)])
  ∧ ∀ x, x ≠ ImportError →
      register_package package (inl x) all_subclasses s = (inl x, s).
Proof.
  split; [ done | ].
  intros x Hx. unfold register_package. rewrite bind_eq.
  by destruct x.
Qed.

Lemma register_action_class_lookup (c : class Tracker) s
    (k : string) (g : function Tracker) :
  actions (self (snd (register_action (AClass c) s))) !! k = Some g →
  actions (self s) !! k = Some g
  ∨ String.prefix "rasa." (class_module c) = false
    ∧ ∃ a, class_new c = inr (AnAction a)
           ∧ Action_name a = k ∧ Action_run a = g
           ∧ (3 ≤ length (arguments_of g))%nat.
Proof.
  unfold register_action.
  destruct (String.prefix "rasa." (class_module c)) eqn:Hm;
    [ by left | ].
  destruct (class_new c) as [x | [a | v]]; step_M; try by left.
  rewrite register_function_spec.
  destruct (decide (length (arguments_of (Action_run a)) < 3));
    [ by left | ].
  cbn [snd self actions].
  destruct (decide (Action_name a = k)) as [<- | Hne].
  - rewrite lookup_insert_eq. intros [= <-]. right.
    split; [ done | ]. exists a. split_and!; try done. lia.
  - rewrite lookup_insert_ne by done. by left.
Qed.

(** Whatever a name yields after [register_package] and did not yield
    before is the [run] of an action built by one of the subclasses that
    pass the test of the loop: not abstract, not defined under
    [rasa_core.], [rasa.], [rasa_sdk.] or [rasa_core_sdk.], and with a
    [run] of three parameters at least. *)
Theorem register_package_registers_discoverable
    (package : string) (import_submodules : exn + ())
    (all_subclasses : list (class Tracker)) s
    (k : string) (g : function Tracker) :
  actions (self (snd (register_package package import_submodules
                        all_subclasses s))) !! k = Some g →
  actions (self s) !! k = Some g
  ∨ ∃ c a, c ∈ all_subclasses ∧ discoverable c = true
           ∧ class_new c = inr (AnAction a)
           ∧ Action_name a = k ∧ Action_run a = g
           ∧ (3 ≤ length (arguments_of g))%nat.
Proof.
  unfold register_package. rewrite bind_eq.
  match goal with
  | |- context [for_each _ ?b] => set (body := b)
  end.
  assert (∀ l s0,
            actions (self (snd (for_each l body s0))) !! k = Some g →
            actions (self s0) !! k = Some g
            ∨ ∃ c a, c ∈ l ∧ discoverable c = true
                     ∧ class_new c = inr (AnAction a)
                     ∧ Action_name a = k ∧ Action_run a = g
                     ∧ (3 ≤ length (arguments_of g))%nat) as Hloop.
  { induction l as [|c l IH]; intros s0; [ by left | ].
    cbn [for_each]. rewrite bind_eq.
    assert (actions (self (snd (body c s0))) !! k = Some g →
            actions (self s0) !! k = Some g
            ∨ ∃ a, discoverable c = true ∧ class_new c = inr (AnAction a)
                   ∧ Action_name a = k ∧ Action_run a = g
                   ∧ (3 ≤ length (arguments_of g))%nat) as Hstep.
    { unfold body. fold (discoverable c).
      destruct (discoverable c); [ | by left ].
      intros [H | (_ & a & H)]%register_action_class_lookup;
        [ by left | right; by exists a ]. }
    destruct (body c s0) as [[x | []] s1]; cbn [snd] in *.
    - intros [H | (a & H)]%Hstep; [ by left | right ].
      exists c, a. split; [ by left | done ].
    - intros [H | (c' & a' & Hin & H)]%IH.
      + apply Hstep in H as [H | (a & H)]; [ by left | right ].
        exists c, a. split; [ by left | done ].
      + right. exists c', a'. split; [ by right | done ]. }
  destruct import_submodules as [x | []].
  - destruct x; step_M; try by left.
    intros H%Hloop. by cbn [logged self] in H.
  - step_M. apply Hloop.
Qed.

Lemma for_each_app {A : Type} (l1 l2 : list A)
    (body : A → M Tracker ()) s :
  for_each (l1 ++ l2) body s
  = match for_each l1 body s with
    | (inr _, s1) => for_each l2 body s1
    | (inl x, s1) => (inl x, s1)
    end.
Proof.
  revert s. induction l1 as [|x l1 IH]; intros s; [ done | ].
  cbn [app for_each]. rewrite !bind_eq.
  destruct (body x s) as [[err | []] s1]; [ done | apply IH ].
Qed.

(** The loop of [register_package] has no handler for what
    [register_action] raises: the first subclass whose registration
    fails ends the call, and the subclasses after it are not
    registered. *)
Theorem register_package_stops_at_first_failure
    (package : string) (import_submodules : exn + ())
    (before after : list (class Tracker)) (c : class Tracker)
    (x : exn) s s1 s2 :
  register_package package import_submodules before s = (inr (), s1) →
  discoverable c = true →
  register_action (AClass c) s1 = (inl x, s2) →
  register_package package import_submodules (before ++ c :: after) s
  = (inl x, s2).
Proof.
  unfold register_package. rewrite !bind_eq.
  destruct import_submodules as [err | []]; [ destruct err | ]; step_M;
    try (intros [=]; fail);
    intros Hbefore Hc Hfail; rewrite for_each_app, Hbefore;
    cbn [for_each]; rewrite bind_eq; fold (discoverable c);
    by rewrite Hc, Hfail.
Qed.

(** An action registered through [register_action], as an object or as
    its class, is the one [run] calls for a request with its name: the
    response holds what its [run] method returned, validated, and the
    messages it sent. *)
Theorem register_action_then_run
    (action : registrable Tracker) (a : Action Tracker)
    (action_call : gmap string pyval) (tracker : Tracker) events
    (dispatcher : CollectingDispatcher) s :
  action = AnObject (AnAction a)
  ∨ (∃ c, action = AClass c
          ∧ String.prefix "rasa." (class_module c) = false
          ∧ class_new c = inr (AnAction a)) →
  (3 ≤ length (arguments_of (Action_run a)))%nat →
  Action_name a ≠ "" →
  action_call !! "next_action" = Some (PStr (Action_name a)) →
  Tracker_from_dict (dict_get action_call "tracker") = inr tracker →
  call (Action_run a) Dispatcher.init tracker
    (dict_get_default action_call "domain" (PDict ∅))
  = (inr (PList events), dispatcher) →
  fst (register_action action s) = inr ()
  ∧ fst (run Tracker_from_dict dict_keys action_call
           (snd (register_action action s)))
    = inr (_create_api_response (omap accepted events)
             (messages dispatcher)).
Proof.
  intros Haction Harity Hname Hreq Htr Hcall.
  assert (register_action action s
          = register_function (Action_name a) (Action_run a) s) as ->.
  { destruct Haction as [-> | (c & -> & Hm & Hnew)]; [ done | ].
    unfold register_action. by rewrite Hm, Hnew. }
  rewrite register_function_spec.
  destruct (decide _) as [Hlt | _]; [ lia | ].
  split; [ done | ]. cbn [snd].
  erewrite run_found; try eassumption.
  - by destruct events.
  - cbn. apply lookup_insert_eq.
  - done.
Qed.

(** *** More on the messages of the dispatcher *)

Lemma utter_all_app
    (calls1 calls2 : list (Dispatcher.utterance Tracker * gmap string pyval))
    (self : CollectingDispatcher) :
  Dispatcher.utter_all (calls1 ++ calls2) self
  = match Dispatcher.utter_all calls1 self with
    | inr self' => Dispatcher.utter_all calls2 self'
    | inl err => inl err
    end.
Proof.
  revert self. induction calls1 as [|c calls1 IH]; intros self; [ done | ].
  cbn [app Dispatcher.utter_all].
  by destruct (Dispatcher.utter c.1 c.2 self).
Qed.

(** The dispatcher only ever appends: a run of calls that raise nothing
    leaves the earlier messages in front and adds one message for each
    call, and a run of calls can be split anywhere, the second part
    going on from what the first part left (or not at all, if the first
    part raised). *)
Theorem utter_all_keeps_earlier_messages
    (calls1 calls2 : list (Dispatcher.utterance Tracker * gmap string pyval))
    (self : CollectingDispatcher) :
  Dispatcher.utter_all (calls1 ++ calls2) self
  = match Dispatcher.utter_all calls1 self with
    | inr self' => Dispatcher.utter_all calls2 self'
    | inl err => inl err
    end
  ∧ ∀ self', Dispatcher.utter_all calls1 self = inr self' →
      messages self `prefix_of` messages self'
      ∧ length (messages self') = length (messages self) + length calls1.
Proof.
  split; [ apply utter_all_app | ].
  intros self' Hall. rewrite (utter_all_appends _ _ _ Hall). split.
  - by apply prefix_app_r.
  - by rewrite length_app, length_fmap.
Qed.


(** The deprecated [utter_custom_message] hands the tuple of its elements
    to [utter_elements] as one element: called without a keyword [self]
    or [elements], its message holds, under [elements], a tuple whose one
    item is the tuple of the elements, where [utter_elements] called with
    the same elements holds the tuple of the elements; and it warns of
    the deprecation. *)
Theorem utter_custom_message_nests_elements
    (elements : list pyval) (kwargs : gmap string pyval)
    (self : CollectingDispatcher) :
  kwargs !! "self" = None →
  kwargs !! "elements" = None →
  ∃ custom plain : gmap string pyval,
    Dispatcher.utter_custom_message elements kwargs self
    = inr ([Dispatcher.DeprecationWarning],
           {| messages := messages self ++ [PDict custom] |})
    ∧ Dispatcher.utter_elements elements kwargs self
      = inr {| messages := messages self ++ [PDict plain] |}
    ∧ custom !! "elements" = Some (PTuple [PTuple elements])
    ∧ plain !! "elements" = Some (PTuple elements)
    ∧ ∀ k, k ≠ "elements" → custom !! k = plain !! k.
Proof.
  intros Hself Hk.
  assert (Dispatcher.bind_kwargs ["self"] kwargs = inr kwargs) as Hbind.
  { unfold Dispatcher.bind_kwargs, Dispatcher.has_key. cbn [find].
    by rewrite Hself. }
  eexists _, _. unfold Dispatcher.utter_custom_message. rewrite Hbind.
  unfold Dispatcher.utter_elements. rewrite Hbind.
  split; [ reflexivity | ]. split; [ reflexivity | ].
  unfold Dispatcher.update.
  split; [ by rewrite lookup_union_r | ].
  split; [ by rewrite lookup_union_r | ].
  intros k Hne. rewrite !lookup_union.
  destruct (decide (k = "text")) as [-> | Hne'].
  - by rewrite !lookup_insert_eq.
  - by rewrite !lookup_insert_ne, !lookup_singleton_ne.
Qed.

End further_properties.

(** ** The further properties on sample values *)

(** A slot event and a text: the event is kept, and kept again. *)
Lemma validate_events_idempotent_witness :
  ∃ validated,
    fst (validate_events sample_dict_keys
           (PList [slot_x; PStr "not-a-record"]) (PStr "greet") fresh)
    = inr validated
    ∧ (∀ e, e ∈ validated →
         e ∈ [slot_x; PStr "not-a-record"]
         ∧ ∃ d v, e = PDict d ∧ d !! "event" = Some v ∧ py_truthy v = true)
    ∧ validate_events sample_dict_keys (PList validated) (PStr "other")
        fresh
      = (inr validated, fresh).
Proof.
  apply (validate_events_idempotent sample_dict_keys (PStr "greet")
           (PStr "other") [slot_x; PStr "not-a-record"] fresh fresh).
  intros e He.
  apply elem_of_cons in He as [-> | He]; [ discriminate | ].
  apply elem_of_cons in He as [-> | He]; [ discriminate | ].
  by apply elem_of_nil in He.
Defined.

(** With the keys of a dict taken in the order of the map. *)
Lemma validate_events_of_dict_or_text_witness :
  (∀ d : gmap string pyval,
     validate_events sample_dict_keys (PDict d) (PStr "greet") fresh
     = (inr [],
        logged fresh
          ((λ k, (ERROR, InvalidEvent (PStr "greet") (PStr k)))
           <$> sample_dict_keys d))
     ∧ length (sample_dict_keys d) = size d
     ∧ (∀ k, k ∈ sample_dict_keys d ↔ is_Some (d !! k))
     ∧ NoDup (sample_dict_keys d))
  ∧ (∀ t : string,
       validate_events sample_dict_keys (PStr t) (PStr "greet") fresh
       = (inr [],
          logged fresh
            ((λ c, (ERROR, InvalidEvent (PStr "greet") (PStr c)))
             <$> characters t))
       ∧ foldr String.append "" (characters t) = t).
Proof.
  apply (validate_events_of_dict_or_text sample_dict_keys (PStr "greet")
           fresh).
  intros d. reflexivity.
Defined.

(** [failing] raises after it has said "hello". *)
Lemma run_propagates_exceptions_witness :
  let s := snd (register_function "fail" failing fresh) in
  (∀ x, sample_from_dict (dict_get (request (PStr "fail")) "tracker")
        = inl x →
        run sample_from_dict sample_dict_keys (request (PStr "fail")) s
        = (inl x, logged s [(DEBUG, ReceivedRequest (PStr "fail"))]))
  ∧ (∀ (tracker : pyval) x (dispatcher : CollectingDispatcher),
       sample_from_dict (dict_get (request (PStr "fail")) "tracker")
       = inr tracker →
       call failing Dispatcher.init tracker
         (dict_get_default (request (PStr "fail")) "domain" (PDict ∅))
       = (inl x, dispatcher) →
       run sample_from_dict sample_dict_keys (request (PStr "fail")) s
       = (inl x, logged s [(DEBUG, ReceivedRequest (PStr "fail"))])).
Proof.
  apply (run_propagates_exceptions sample_from_dict sample_dict_keys
           (request (PStr "fail")) "fail" failing
           (snd (register_function "fail" failing fresh)));
    [ reflexivity | discriminate | reflexivity | reflexivity ].
Defined.

(** The false callable, registered and asked for. *)
Lemma run_does_not_find_false_callable_witness :
  let s := snd (register_function "collect" false_callable fresh) in
  run sample_from_dict sample_dict_keys (request (PStr "collect")) s
  = (inl (NoRegisteredAction (PStr "collect")),
     logged s [(DEBUG, ReceivedRequest (PStr "collect"))])
  ∧ fst (run sample_from_dict sample_dict_keys (request (PStr "collect")) s)
    = fst (run sample_from_dict sample_dict_keys (request (PStr "collect"))
             {| self := {| actions := delete "collect" (actions (self s)) |};
                logger := logger s |}).
Proof.
  apply (run_does_not_find_false_callable sample_from_dict sample_dict_keys
           (request (PStr "collect")) "collect" false_callable
           (snd (register_function "collect" false_callable fresh)));
    [ reflexivity | discriminate | reflexivity | reflexivity ].
Defined.

(** [returns_true] returns [True]. *)
Lemma run_raises_on_non_iterable_result_witness :
  run sample_from_dict sample_dict_keys (request (PStr "true"))
    (snd (register_function "true" returns_true fresh))
  = (inl (TypeError (PBool true)),
     logged (snd (register_function "true" returns_true fresh))
       [(DEBUG, ReceivedRequest (PStr "true"))]).
Proof.
  apply (run_raises_on_non_iterable_result sample_from_dict
           sample_dict_keys (request (PStr "true")) "true" returns_true
           (PDict ∅) (PBool true) said_hello
           (snd (register_function "true" returns_true fresh)));
    [ reflexivity | discriminate | reflexivity | reflexivity | reflexivity
    | reflexivity | left; reflexivity ].
Defined.

(** A request whose [next_action] is the list [["greet"]]. *)
Lemma run_raises_on_unhashable_name_witness :
  run sample_from_dict sample_dict_keys (request (PList [PStr "greet"]))
    (snd (register_function "greet" greet fresh))
  = (inl (TypeError (PList [PStr "greet"])),
     logged (snd (register_function "greet" greet fresh))
       [(DEBUG, ReceivedRequest (PList [PStr "greet"]))]).
Proof.
  apply (run_raises_on_unhashable_name sample_from_dict sample_dict_keys
           (request (PList [PStr "greet"])) (PList [PStr "greet"])
           (snd (register_function "greet" greet fresh)));
    reflexivity.
Defined.

(** A request for [greet] with a tracker and no domain. *)
Lemma run_defaults_domain_witness :
  run sample_from_dict sample_dict_keys
    (<["next_action" := PStr "greet"]> {["tracker" := PDict ∅]})
    (snd (register_function "greet" greet fresh))
  = run sample_from_dict sample_dict_keys
      (<["domain" := PDict ∅]>
         (<["next_action" := PStr "greet"]> {["tracker" := PDict ∅]}))
      (snd (register_function "greet" greet fresh)).
Proof.
  apply (run_defaults_domain sample_from_dict sample_dict_keys
           (<["next_action" := PStr "greet"]> {["tracker" := PDict ∅]})
           (snd (register_function "greet" greet fresh))).
  reflexivity.
Defined.

(** A request for [greet] that also carries a [sender_id]. *)
Lemma run_ignores_other_keys_witness :
  run sample_from_dict sample_dict_keys
    (<["sender_id" := PStr "user"]> (request (PStr "greet")))
    (snd (register_function "greet" greet fresh))
  = run sample_from_dict sample_dict_keys (request (PStr "greet"))
      (snd (register_function "greet" greet fresh))
  ∧ run sample_from_dict sample_dict_keys
      (delete "sender_id" (request (PStr "greet")))
      (snd (register_function "greet" greet fresh))
    = run sample_from_dict sample_dict_keys (request (PStr "greet"))
        (snd (register_function "greet" greet fresh)).
Proof.
  apply (run_ignores_other_keys sample_from_dict sample_dict_keys
           (request (PStr "greet")) "sender_id" (PStr "user")
           (snd (register_function "greet" greet fresh)));
    discriminate.
Defined.

(** The class of [greet], and an object that is not an action. *)
Lemma register_action_builds_the_class_witness :
  register_action (AClass greet_class) fresh
  = register_action (AnObject (AnAction greet_action)) fresh
  ∧ ∀ v, register_action (AnObject (NotAnActionObject v)) fresh
         = (inl NotAnAction, fresh).
Proof.
  apply (register_action_builds_the_class greet_class fresh).
  reflexivity.
Defined.

(** A class of [rasa.core.actions] that cannot even be called. *)
Lemma register_action_skips_built_in_witness :
  register_action (AClass built_in_class) fresh
  = (inr (),
     logged fresh [(WARNING, SkippingBuiltIn "rasa.core.actions")])
  ∧ ∀ package,
      register_package package (inr ()) [built_in_class] fresh
      = (inr (), fresh).
Proof.
  apply (register_action_skips_built_in built_in_class fresh).
  reflexivity.
Defined.

(** A package with a class of Rasa and the class of [greet]. *)
Lemma register_package_registers_discoverable_witness :
  actions (self fresh) !! "greet" = Some greet
  ∨ ∃ c a, c ∈ [built_in_class; greet_class] ∧ discoverable c = true
           ∧ class_new c = inr (AnAction a)
           ∧ Action_name a = "greet" ∧ Action_run a = greet
           ∧ (3 ≤ length (arguments_of greet))%nat.
Proof.
  apply (register_package_registers_discoverable "actions" (inr ())
           [built_in_class; greet_class] fresh "greet" greet).
  reflexivity.
Defined.

(** The class of [greet], a class whose [run] has one parameter, and the
    class of [greet] again. *)
Lemma register_package_stops_at_first_failure_witness :
  register_package "actions" (inr ())
    ([greet_class] ++ short_class :: [greet_class]) fresh
  = (inl (TooFewParameters 1),
     snd (register_action (AClass short_class)
            (snd (register_package "actions" (inr ()) [greet_class]
                    fresh)))).
Proof.
  apply (register_package_stops_at_first_failure "actions" (inr ())
           [greet_class] [greet_class] short_class (TooFewParameters 1)
           fresh
           (snd (register_package "actions" (inr ()) [greet_class] fresh)));
    reflexivity.
Defined.

(** [greet] registered through its class, then called. *)
Lemma register_action_then_run_witness :
  fst (register_action (AClass greet_class) fresh) = inr ()
  ∧ fst (run sample_from_dict sample_dict_keys (request (PStr "greet"))
           (snd (register_action (AClass greet_class) fresh)))
    = inr (_create_api_response (omap accepted [slot_x])
             (messages said_hello)).
Proof.
  apply (register_action_then_run sample_from_dict sample_dict_keys
           (AClass greet_class) greet_action (request (PStr "greet"))
           (PDict ∅) [slot_x] said_hello fresh);
    [ right; exists greet_class; repeat split; reflexivity
    | simpl; lia | discriminate | reflexivity | reflexivity | reflexivity ].
Defined.

(** Two elements and no keyword argument. *)
Lemma utter_custom_message_nests_elements_witness :
  ∃ custom plain : gmap string pyval,
    Dispatcher.utter_custom_message [PStr "a"; PStr "b"] ∅ Dispatcher.init
    = inr ([Dispatcher.DeprecationWarning],
           {| messages := messages Dispatcher.init ++ [PDict custom] |})
    ∧ Dispatcher.utter_elements [PStr "a"; PStr "b"] ∅ Dispatcher.init
      = inr {| messages := messages Dispatcher.init ++ [PDict plain] |}
    ∧ custom !! "elements" = Some (PTuple [PTuple [PStr "a"; PStr "b"]])
    ∧ plain !! "elements" = Some (PTuple [PStr "a"; PStr "b"])
    ∧ ∀ k, k ≠ "elements" → custom !! k = plain !! k.
Proof.
  apply (utter_custom_message_nests_elements [PStr "a"; PStr "b"] ∅
           Dispatcher.init);
    reflexivity.
Defined.
